(** * Table migration orchestrator and migration-status refresher

    Shallow embedding of
    [src/databricks/labs/ucx/hive_metastore/table_migrate.py]:
    [TablesMigrate] (migrate, revert, revert report) and
    [MigrationStatusRefresher] (seen-tables index, point check, crawl). *)

From Stdlib Require Import String Ascii List Bool Arith Lia.
From Stdlib Require Import DecimalString.
From Stdlib Require Import Permutation.
Import ListNotations.
Open Scope string_scope.
#[local] Set Warnings "-register-all".

(** ** Python helpers *)
Module Py.

(** [str.lower()] on the ASCII range. *)
Definition lower_char (c : ascii) : ascii :=
  let n := nat_of_ascii c in
  if ((65 <=? n) && (n <=? 90))%nat then ascii_of_nat (n + 32)%nat else c.

Fixpoint lower (s : string) : string :=
  match s with
  | EmptyString => EmptyString
  | String c s' => String (lower_char c) (lower s')
  end.

(** [str.split(sep)] with a one-character separator: empty pieces are kept. *)
Fixpoint split_aux (sep : ascii) (s : string) (cur : string) : list string :=
  match s with
  | EmptyString => [cur]
  | String c s' =>
      if Ascii.eqb c sep then cur :: split_aux sep s' ""
      else split_aux sep s' (cur ++ String c "")
  end.

Definition split (sep : ascii) (s : string) : list string := split_aux sep s "".

(** Truthiness of an [str | None] value: [None] and [""] are falsy. *)
Definition truthy (o : option string) : bool :=
  match o with
  | None => false
  | Some s => negb (String.eqb s "")
  end.

(** [f"{s:<w}"]: left-aligned, padded with spaces to width [w]. *)
Definition ljust (w : nat) (s : string) : string :=
  s ++ String.concat "" (repeat " " (w - String.length s)).

(** [f"{n:w}"] for an int: right-aligned to width [w]. *)
Definition str_of_nat (n : nat) : string :=
  NilZero.string_of_uint (Nat.to_uint n).

Definition rjust_nat (w : nat) (n : nat) : string :=
  let s := str_of_nat n in
  String.concat "" (repeat " " (w - String.length s)) ++ s.

(** [c * n] for a one-character string [c]. *)
Definition mul_str (c : string) (n : nat) : string := String.concat "" (repeat c n).

(** A Python [dict] as an association list in insertion order:
    [d[k] = v] updates an existing key in place, appends a new one. *)
Section Dict.
Context {K V : Type} (keqb : K -> K -> bool).

Fixpoint dict_set (d : list (K * V)) (k : K) (v : V) : list (K * V) :=
  match d with
  | [] => [(k, v)]
  | (k', v') :: d' => if keqb k' k then (k', v) :: d' else (k', v') :: dict_set d' k v
  end.

Fixpoint dict_get (d : list (K * V)) (k : K) : option V :=
  match d with
  | [] => None
  | (k', v') :: d' => if keqb k' k then Some v' else dict_get d' k
  end.

Definition dict_mem (d : list (K * V)) (k : K) : bool :=
  match dict_get d k with Some _ => true | None => false end.
End Dict.

Definition sdict := list (string * string).

(** [{v: k for (k, v) in d.items()}] *)
Definition reverse_dict (d : sdict) : sdict :=
  fold_left (fun acc kv => dict_set String.eqb acc (snd kv) (fst kv)) d [].

(** [x in d.values()] *)
Definition in_values (x : string) (d : sdict) : bool :=
  existsb (String.eqb x) (map snd d).

End Py.

Import Py.

(** ** Data model *)

(** Modelled from the spec: the [What] classification of
    [databricks.labs.ucx.hive_metastore.tables] (not under src/), in the
    order the spec lists it. *)
Inductive What := DBFS_ROOT_DELTA | EXTERNAL_SYNC | VIEW | NOT_SUPPORTED.

Definition What_all : list What := [DBFS_ROOT_DELTA; EXTERNAL_SYNC; VIEW; NOT_SUPPORTED].

Definition What_name (w : What) : string :=
  match w with
  | DBFS_ROOT_DELTA => "DBFS_ROOT_DELTA"
  | EXTERNAL_SYNC => "EXTERNAL_SYNC"
  | VIEW => "VIEW"
  | NOT_SUPPORTED => "NOT_SUPPORTED"
  end.

Definition What_eqb (a b : What) : bool :=
  match a, b with
  | DBFS_ROOT_DELTA, DBFS_ROOT_DELTA | EXTERNAL_SYNC, EXTERNAL_SYNC
  | VIEW, VIEW | NOT_SUPPORTED, NOT_SUPPORTED => true
  | _, _ => false
  end.

(** The source [Table] descriptor (tables.py, not under src/): the fields
    table_migrate.py reads.  Its composite [key] property is carried as a
    field, so every result holds for any way the key is derived. *)
Record Table := mkTable {
  database : string;
  name : string;
  key : string;
  kind : string;          (* "TABLE" | "VIEW" *)
  object_type : string;   (* "MANAGED" | "EXTERNAL" | ... *)
  what : What;
  upgraded_to : option string
}.

(** Modelled from the spec: [Rule] of mapping.py (not under src/); its
    [as_uc_table_key] is the destination identity catalog.schema.table. *)
Record Rule := mkRule {
  catalog_name : string;
  r_src_schema : string;
  r_dst_schema : string;
  r_src_table : string;
  r_dst_table : string
}.

Definition as_uc_table_key (r : Rule) : string :=
  catalog_name r ++ "." ++ r_dst_schema r ++ "." ++ r_dst_table r.

Record TableToMigrate := mkTableToMigrate { src : Table; rule : Rule }.

Record MigrationStatus := mkMigrationStatus {
  src_schema : string;
  src_table : string;
  dst_catalog : option string;
  dst_schema : option string;
  dst_table : option string;
  update_ts : option string
}.

Record MigrationCount := mkMigrationCount {
  mc_database : string;
  mc_what_count : list (What * nat)
}.

(** The statements sent to the SQL backend.  The [Table.sql_*] builders
    live in tables.py (not under src/); each is kept as a constructor over
    exactly the arguments table_migrate.py passes to it.  [SqlDrop] is the
    f-string [f"DROP {table.kind} IF EXISTS {target_table_key}"], and
    [ShowTblProperties] is the query of [is_upgraded]. *)
Inductive Stmt :=
| SqlMigrateExternal (t : Table) (target : string)
| SqlMigrateDbfs (t : Table) (target : string)
| SqlMigrateView (t : Table) (target : string)
| SqlAlterTo (t : Table) (target : string)
| SqlAlterFrom (t : Table) (target : string) (ws_id : nat)
| SqlUnsetUpgradedTo (t : Table)
| SqlDrop (kind : string) (target : string)
| ShowTblProperties (schema table : string).

(** A result row, addressed by column name. *)
Definition Row := list (string * string).

(** The workspace client: catalogs, schemas and tables of the destination
    service, and the workspace id. *)
Record SchemaInfo := mkSchemaInfo { si_catalog_name : string; si_name : string }.

Record TableInfo := mkTableInfo {
  ti_name : string;
  ti_full_name : option string;
  ti_properties : option (list (string * string))
}.

Record Workspace := mkWorkspace {
  catalogs_list : list string;
  schemas_list : string -> list SchemaInfo;
  tables_list : string -> string -> list TableInfo;
  get_workspace_id : nat
}.

(** ** Effects: backend oracle, trace, errors and the [_seen_tables] field *)

(** The SQL backend: whether [execute] of a statement succeeds (or raises),
    and what [fetch] returns ([None]: it raises). *)
Record Backend := mkBackend {
  exec_ok : Stmt -> bool;
  fetch_rows : Stmt -> option (list Row)
}.

Inductive Level := DEBUG | INFO | WARNING | ERROR.

Inductive Event :=
| Execute (s : Stmt)
| Fetch (s : Stmt)
| Log (lvl : Level) (msg : string)
| LogSql (lvl : Level) (msg : string) (s : Stmt)
| Print (line : string).

Inductive Exc :=
| StopIteration
| SqlError (s : Stmt)
| KeyError (k : string)
| AttributeError (a : string)
| ManyError (errs : list Exc).

Inductive Res (A : Type) := Ok (a : A) | Err (e : Exc).
Arguments Ok {A}.
Arguments Err {A}.

Record St := mkSt { trace : list Event; seen_tables : sdict }.

Definition M (A : Type) := Backend -> St -> Res A * St.

Definition ret {A} (a : A) : M A := fun _ st => (Ok a, st).

Definition bind {A B} (m : M A) (f : A -> M B) : M B :=
  fun be st =>
    match m be st with
    | (Ok a, st') => f a be st'
    | (Err e, st') => (Err e, st')
    end.

Notation "x <- m ;; k" := (bind m (fun x => k)) (at level 61, m at next level, right associativity).
Notation "m ;;; k" := (bind m (fun _ => k)) (at level 61, right associativity).

Definition raise {A} (e : Exc) : M A := fun _ st => (Err e, st).

Definition emit (e : Event) : M unit :=
  fun _ st => (Ok tt, mkSt (trace st ++ [e]) (seen_tables st)).

Definition log (lvl : Level) (msg : string) : M unit := emit (Log lvl msg).

Definition print (line : string) : M unit := emit (Print line).

Definition execute (s : Stmt) : M unit :=
  fun be st =>
    let st' := mkSt (trace st ++ [Execute s]) (seen_tables st) in
    if exec_ok be s then (Ok tt, st') else (Err (SqlError s), st').

Definition fetch (s : Stmt) : M (list Row) :=
  fun be st =>
    let st' := mkSt (trace st ++ [Fetch s]) (seen_tables st) in
    match fetch_rows be s with
    | Some rows => (Ok rows, st')
    | None => (Err (SqlError s), st')
    end.

Definition get_seen : M sdict := fun _ st => (Ok (seen_tables st), st).

Definition set_seen (d : sdict) : M unit := fun _ st => (Ok tt, mkSt (trace st) d).

(** [try: ... except Exception as e: ...] *)
Definition try_res {A} (m : M A) : M (Res A) :=
  fun be st => let '(r, st') := m be st in (Ok r, st').

(** [row.attr] and [row["attr"]]: a missing column raises. *)
Definition row_attr (r : Row) (a : string) : M string :=
  match dict_get String.eqb r a with
  | Some v => ret v
  | None => raise (AttributeError a)
  end.

(** The backend's row type answers [row["attr"]] by attribute lookup, so a
    missing column raises [AttributeError] here too. *)
Definition row_item (r : Row) (a : string) : M string :=
  match dict_get String.eqb r a with
  | Some v => ret v
  | None => raise (AttributeError a)
  end.

(** [next(iter(xs))] *)
Definition next_iter {A} (xs : list A) : M A :=
  match xs with
  | x :: _ => ret x
  | [] => raise StopIteration
  end.

(** Run [f] on each element in order (a [for] loop). *)
Fixpoint for_each {A} (xs : list A) (f : A -> M unit) : M unit :=
  match xs with
  | [] => ret tt
  | x :: xs' => f x ;;; for_each xs' f
  end.

(** [Threads.strict(name, tasks)] of databricks-labs-blueprint: every task
    is run, an exception of one task is collected and does not stop the
    others, and after all have run an aggregate error is raised if any task
    raised; otherwise the collected results are returned.  Tasks share no
    state besides the backend, so they are run here in list order; the
    real runner collects the exceptions in completion order, so only
    properties up to the order between tasks carry over to it. *)
Fixpoint gather {A} (tasks : list (M A)) : M (list A * list Exc) :=
  match tasks with
  | [] => ret ([], [])
  | t :: ts =>
      r <- try_res t ;;
      acc <- gather ts ;;
      match r with
      | Ok a => ret (a :: fst acc, snd acc)
      | Err e => ret (fst acc, e :: snd acc)
      end
  end.

Definition Threads_strict {A} (name : string) (tasks : list (M A)) : M (list A) :=
  r <- gather tasks ;;
  match snd r with
  | [] => ret (fst r)
  | errs => raise (ManyError errs)
  end.

(** [for x in xs: acc = f(acc, x)] *)
Fixpoint fold_m {A B} (f : B -> A -> M B) (b : B) (xs : list A) : M B :=
  match xs with
  | [] => ret b
  | x :: xs' => b' <- f b x ;; fold_m f b' xs'
  end.

(** [[f(x) for x in xs]] *)
Fixpoint map_m {A B} (f : A -> M B) (xs : list A) : M (list B) :=
  match xs with
  | [] => ret []
  | x :: xs' => y <- f x ;; ys <- map_m f xs' ;; ret (y :: ys)
  end.

(** [str(x)] of an [str | None]. *)
Definition py_str_opt (o : option string) : string :=
  match o with Some s => s | None => "None" end.

(** ** MigrationStatusRefresher *)

Record MigrationStatusRefresher := mkMigrationStatusRefresher {
  msr_ws : Workspace;
  msr_table_crawler : list Table   (* [self._table_crawler.snapshot()] *)
}.

(** [_iter_schemas] *)
Definition iter_schemas (ws : Workspace) : list SchemaInfo :=
  flat_map (schemas_list ws) (catalogs_list ws).

(** The body of the inner loop of [get_seen_tables]. *)
Definition seen_tables_step (schema : SchemaInfo) (seen : sdict) (table : TableInfo) : M sdict :=
  match ti_properties table with
  | None | Some [] => ret seen
  | Some props =>
      match dict_get String.eqb props "upgraded_from" with
      | None => ret seen
      | Some upgraded_from =>
          match ti_full_name table with
          | Some full_name =>
              if truthy (Some full_name)
              then ret (dict_set String.eqb seen (lower full_name) (lower upgraded_from))
              else log WARNING ("The table " ++ ti_name table ++ " in " ++ si_name schema
                                ++ " has no full name") ;;; ret seen
          | None =>
              log WARNING ("The table " ++ ti_name table ++ " in " ++ si_name schema
                           ++ " has no full name") ;;; ret seen
          end
      end
  end.

Definition get_seen_tables (ws : Workspace) : M sdict :=
  fold_m
    (fun seen schema =>
       fold_m (seen_tables_step schema) seen
         (tables_list ws (si_catalog_name schema) (si_name schema)))
    [] (iter_schemas ws).

Fixpoint is_upgraded_rows (schema table : string) (rows : list Row) : M bool :=
  match rows with
  | [] => log INFO (schema ++ "." ++ table ++ " is set as not upgraded") ;;; ret false
  | value :: rows' =>
      k <- row_item value "key" ;;
      if String.eqb k "upgraded_to"
      then log INFO (schema ++ "." ++ table ++ " is set as upgraded") ;;; ret true
      else is_upgraded_rows schema table rows'
  end.

Definition is_upgraded (schema table : string) : M bool :=
  result <- fetch (ShowTblProperties schema table) ;;
  is_upgraded_rows schema table result.

(** One record of [_crawl]; [reverse_seen] is the inverted seen index. *)
Definition crawl_one (reverse_seen : sdict) (timestamp : string) (table : Table)
  : M MigrationStatus :=
  let table_migration_status :=
    mkMigrationStatus (database table) (name table) None None None (Some timestamp) in
  if dict_mem String.eqb reverse_seen (key table) then
    up <- is_upgraded (database table) (name table) ;;
    if up then
      match dict_get String.eqb reverse_seen (key table) with
      | Some target_table =>
          let parts := split "." target_table in
          if Nat.eqb (length parts) 3 then
            ret (mkMigrationStatus (database table) (name table)
                   (Some (nth 0 parts "")) (Some (nth 1 parts "")) (Some (nth 2 parts ""))
                   (Some timestamp))
          else ret table_migration_status
      | None => raise (KeyError (key table))
      end
    else ret table_migration_status
  else ret table_migration_status.

(** [_crawl]; [timestamp] is [str(datetime.now(timezone.utc).timestamp())]. *)
Definition crawl (self : MigrationStatusRefresher) (timestamp : string) : M (list MigrationStatus) :=
  let all_tables := msr_table_crawler self in
  seen <- get_seen_tables (msr_ws self) ;;
  let reverse_seen := reverse_dict seen in
  map_m (crawl_one reverse_seen timestamp) all_tables.

(** ** TablesMigrate *)

Record TablesMigrate := mkTablesMigrate {
  tm_tc : list Table;                          (* [self._tc.snapshot()] *)
  tm_ws : Workspace;
  tm_tables_to_migrate : list TableToMigrate;  (* [self._tm.get_tables_to_migrate(self._tc)] *)
  tm_refresher : MigrationStatusRefresher
}.

Section TablesMigrate.
Variable self : TablesMigrate.

Definition init_seen_tables : M unit :=
  seen <- get_seen_tables (msr_ws (tm_refresher self)) ;; set_seen seen.

Definition table_already_upgraded (target : string) : M bool :=
  seen <- get_seen ;; ret (dict_mem String.eqb seen target).

Definition migrate_external_table (src_table : Table) (rule : Rule) : M bool :=
  let target_table_key := as_uc_table_key rule in
  let table_migrate_sql := SqlMigrateExternal src_table target_table_key in
  emit (LogSql DEBUG ("Migrating external table " ++ key src_table ++ " to using SQL query: ")
          table_migrate_sql) ;;;
  rows <- fetch table_migrate_sql ;;
  sync_result <- next_iter rows ;;
  status_code <- row_attr sync_result "status_code" ;;
  if negb (String.eqb status_code "SUCCESS") then
    description <- row_attr sync_result "description" ;;
    log WARNING ("SYNC command failed to migrate " ++ key src_table ++ " to " ++ target_table_key
                 ++ ". Status code: " ++ status_code ++ ". Description: " ++ description) ;;;
    ret false
  else
    execute (SqlAlterFrom src_table (as_uc_table_key rule) (get_workspace_id (tm_ws self))) ;;;
    ret true.

Definition migrate_dbfs_root_table (src_table : Table) (rule : Rule) : M bool :=
  let target_table_key := as_uc_table_key rule in
  let table_migrate_sql := SqlMigrateDbfs src_table target_table_key in
  emit (LogSql DEBUG ("Migrating managed table " ++ key src_table ++ " to using SQL query: ")
          table_migrate_sql) ;;;
  execute table_migrate_sql ;;;
  execute (SqlAlterTo src_table (as_uc_table_key rule)) ;;;
  execute (SqlAlterFrom src_table (as_uc_table_key rule) (get_workspace_id (tm_ws self))) ;;;
  ret true.

Definition migrate_view (src_table : Table) (rule : Rule) : M bool :=
  let target_table_key := as_uc_table_key rule in
  let table_migrate_sql := SqlMigrateView src_table target_table_key in
  emit (LogSql DEBUG ("Migrating view " ++ key src_table ++ " to using SQL query: ")
          table_migrate_sql) ;;;
  execute table_migrate_sql ;;;
  execute (SqlAlterTo src_table (as_uc_table_key rule)) ;;;
  execute (SqlAlterFrom src_table (as_uc_table_key rule) (get_workspace_id (tm_ws self))) ;;;
  ret true.

Definition migrate_table (src_table : Table) (rule : Rule) : M bool :=
  up <- table_already_upgraded (as_uc_table_key rule) ;;
  if up then
    log INFO ("Table " ++ key src_table ++ " already upgraded to " ++ as_uc_table_key rule) ;;;
    ret true
  else
    match what src_table with
    | DBFS_ROOT_DELTA => migrate_dbfs_root_table src_table rule
    | EXTERNAL_SYNC => migrate_external_table src_table rule
    | VIEW => migrate_view src_table rule
    | _ => log INFO ("Table " ++ key src_table ++ " is not supported for migration") ;;; ret true
    end.

Definition migrate_tables_tasks (what_filter : option What) : list (M bool) :=
  map (fun t => migrate_table (src t) (rule t))
    (filter (fun t => match what_filter with
                      | None => true
                      | Some w => What_eqb (what (src t)) w
                      end)
       (tm_tables_to_migrate self)).

Definition migrate_tables (what_filter : option What) : M unit :=
  init_seen_tables ;;;
  Threads_strict "migrate tables" (migrate_tables_tasks what_filter) ;;;
  ret tt.

(** [s.lower() if s else None] *)
Definition lower_opt (o : option string) : option string :=
  if truthy o then option_map lower o else None.

(** The filter of the loop of [_get_tables_to_revert]. *)
Definition revert_candidate (schema table : option string) (seen : sdict) (cur_table : Table) : bool :=
  negb (match schema with
        | Some s => truthy schema && negb (String.eqb (database cur_table) s)
        | None => false
        end)
  && negb (match table with
           | Some t => truthy table && negb (String.eqb (name cur_table) t)
           | None => false
           end)
  && in_values (key cur_table) seen.

Definition get_tables_to_revert (schema table : option string) : M (list Table) :=
  let schema := lower_opt schema in
  let table := lower_opt table in
  (if truthy table && negb (truthy schema)
   then log ERROR "Cannot accept 'Table' parameter without 'Schema' parameter"
   else ret tt) ;;;
  seen <- get_seen ;;
  ret (filter (revert_candidate schema table seen) (tm_tc self)).

Definition revert_migrated_table (table : Table) (target_table_key : string) : M unit :=
  log INFO ("Reverting " ++ object_type table ++ " table " ++ database table ++ "." ++ name table
            ++ " upgraded_to " ++ py_str_opt (upgraded_to table)) ;;;
  execute (SqlUnsetUpgradedTo table) ;;;
  execute (SqlDrop (kind table) target_table_key).

(** The task-building loop of [revert_migrated_tables]. *)
Definition revert_tasks_step (reverse_seen : sdict) (delete_managed : bool)
  (tasks : list (M unit)) (upgraded_table : Table) : M (list (M unit)) :=
  if String.eqb (kind upgraded_table) "VIEW" || String.eqb (object_type upgraded_table) "EXTERNAL"
     || delete_managed then
    match dict_get String.eqb reverse_seen (key upgraded_table) with
    | Some target => ret (tasks ++ [revert_migrated_table upgraded_table target])%list
    | None => raise (KeyError (key upgraded_table))
    end
  else
    log INFO ("Skipping " ++ object_type upgraded_table ++ " Table " ++ database upgraded_table
              ++ "." ++ name upgraded_table ++ " upgraded_to "
              ++ py_str_opt (upgraded_to upgraded_table)) ;;;
    ret tasks.

Definition revert_migrated_tables (schema table : option string) (delete_managed : bool) : M unit :=
  init_seen_tables ;;;
  upgraded_tables <- get_tables_to_revert schema table ;;
  seen <- get_seen ;;
  let reverse_seen := reverse_dict seen in
  tasks <- fold_m (revert_tasks_step reverse_seen delete_managed) [] upgraded_tables ;;
  Threads_strict "revert migrated tables" tasks ;;;
  ret tt.

(** [table_by_database[cur_table.database].append(cur_table)] *)
Definition group_by_database (tables : list Table) : list (string * list Table) :=
  fold_left
    (fun acc t =>
       dict_set String.eqb acc (database t)
         (match dict_get String.eqb acc (database t) with
          | Some l => (l ++ [t])%list
          | None => [t]
          end))
    tables [].

Definition count_what (tables : list Table) : list (What * nat) :=
  fold_left
    (fun what_count current_table =>
       match upgraded_to current_table with
       | Some _ =>
           let count := match dict_get What_eqb what_count (what current_table) with
                        | Some c => c
                        | None => 0%nat
                        end in
           dict_set What_eqb what_count (what current_table) (S count)
       | None => what_count
       end)
    tables [].

Definition get_revert_count (schema table : option string) : M (list MigrationCount) :=
  init_seen_tables ;;;
  upgraded_tables <- get_tables_to_revert schema table ;;
  let table_by_database := group_by_database upgraded_tables in
  ret (map (fun dt => mkMigrationCount (fst dt) (count_what (snd dt))) table_by_database).

Definition is_upgraded_tm (schema table : string) : M bool := is_upgraded schema table.

(** The console table of [print_revert_report]. *)
Definition what_pieces (w : What) : list string := split "_" (What_name w).

Definition report_lines (migrated_count : list MigrationCount) (delete_managed : bool)
  : list string :=
  let headers := fold_left (fun h w => Nat.max h (length (what_pieces w))) What_all 1%nat in
  let table_header :=
    fold_left (fun s w => s ++ " " ++ ljust 10 (nth 0 (what_pieces w) "") ++ " |")
      What_all "Database            |" in
  let sub_headers :=
    map (fun header =>
           fold_left (fun s w =>
                        if (length (what_pieces w) - 1 <? header)%nat
                        then s ++ mul_str " " 12 ++ "|"
                        else s ++ " " ++ ljust 10 (nth header (what_pieces w) "") ++ " |")
             What_all "                    |")
      (seq 1 (headers - 1)) in
  let separator := mul_str "=" (22 + 13 * length What_all) in
  let rows :=
    map (fun count =>
           fold_left (fun s w =>
                        s ++ " " ++ rjust_nat 10 (match dict_get What_eqb (mc_what_count count) w with
                                                   | Some c => c
                                                   | None => 0%nat
                                                   end) ++ " |")
             What_all (ljust 20 (mc_database count) ++ "|"))
      migrated_count in
  (["The following is the count of migrated tables and views found in scope:"; table_header]
   ++ sub_headers ++ [separator] ++ rows ++ [separator]
   ++ ["The following actions will be performed";
       "- Migrated External Tables and Views (targets) will be deleted"]
   ++ (if delete_managed then ["- Migrated DBFS Root Tables will be deleted"]
       else ["- Migrated DBFS Root Tables will be left intact";
             "To revert and delete Migrated Tables, add --delete_managed true flag to the command"]))%list.

Definition print_revert_report (delete_managed : bool) : M bool :=
  migrated_count <- get_revert_count None None ;;
  match migrated_count with
  | [] => log INFO "No migrated tables were found." ;;; ret false
  | _ => for_each (report_lines migrated_count delete_managed) print ;;; ret true
  end.

End TablesMigrate.

(** ** Concrete inputs *)
Module Demo.

Definition orders : Table :=
  mkTable "sales" "orders" "hive_metastore.sales.orders" "TABLE" "EXTERNAL" EXTERNAL_SYNC
    (Some "main.sales.orders").

Definition daily : Table :=
  mkTable "sales" "daily" "hive_metastore.sales.daily" "TABLE" "MANAGED" DBFS_ROOT_DELTA
    (Some "main.sales.daily").

Definition legacy : Table :=
  mkTable "sales" "legacy" "hive_metastore.sales.legacy" "TABLE" "MANAGED" NOT_SUPPORTED None.

Definition orders_rule : Rule := mkRule "main" "sales" "sales" "orders" "orders".
Definition daily_rule : Rule := mkRule "main" "sales" "sales" "daily" "daily".
Definition legacy_rule : Rule := mkRule "main" "sales" "sales" "legacy" "legacy".

(** Destination tables named by [full_names], tagged from [hive_metastore.sales.<name>]. *)
Definition dest_tables (full_names : list (string * string)) : list TableInfo :=
  map (fun p => mkTableInfo (fst p) (Some (snd p))
                   (Some [("upgraded_from", "hive_metastore.sales." ++ fst p)])) full_names.

Definition ws : Workspace :=
  mkWorkspace ["main"] (fun c => [mkSchemaInfo c "sales"])
    (fun _ _ => dest_tables [("orders", "main.sales.orders"); ("daily", "main.sales.daily")]
                ++ [mkTableInfo "nofullname" None (Some [("upgraded_from", "hive_metastore.sales.x")]);
                    mkTableInfo "untagged" (Some "main.sales.untagged") (Some [("owner", "me")])])%list
    42.

(** A destination whose full name has two segments only. *)
Definition ws_two_parts : Workspace :=
  mkWorkspace ["main"] (fun c => [mkSchemaInfo c "sales"])
    (fun _ _ => [mkTableInfo "orders" (Some "main.orders")
                   (Some [("upgraded_from", "hive_metastore.sales.orders")])])
    42.

Definition backend (status : string) : Backend :=
  mkBackend (fun _ => true)
    (fun s => match s with
              | SqlMigrateExternal _ _ => Some [[("status_code", status); ("description", "permission denied")]]
              | ShowTblProperties _ _ => Some [[("key", "upgraded_to"); ("value", "main.sales.orders")]]
              | _ => Some []
              end).

Definition empty_fetch_backend : Backend := mkBackend (fun _ => true) (fun _ => Some []).

Definition copy_fails_backend : Backend :=
  mkBackend (fun s => match s with SqlMigrateDbfs _ _ => false | _ => true end) (fun _ => Some []).

Definition tm_of (w : Workspace) : TablesMigrate :=
  mkTablesMigrate [orders; daily; legacy] w
    [mkTableToMigrate orders orders_rule; mkTableToMigrate daily daily_rule;
     mkTableToMigrate legacy legacy_rule]
    (mkMigrationStatusRefresher w [orders; daily; legacy]).

Definition tm : TablesMigrate := tm_of ws.

Definition seen : sdict :=
  [("main.sales.orders", "hive_metastore.sales.orders"); ("main.sales.daily", "hive_metastore.sales.daily")].

Definition st0 : St := mkSt [] [].

Definition st_seen : St := mkSt [] seen.

(** The state after [get_seen_tables ws] from [st0]. *)
Definition st_after_seen : St :=
  mkSt [Log WARNING "The table nofullname in sales has no full name"] [].

(** A run whose every destination is already migrated. *)
Definition tm_done : TablesMigrate :=
  mkTablesMigrate [orders; daily] ws
    [mkTableToMigrate orders orders_rule; mkTableToMigrate daily daily_rule]
    (mkMigrationStatusRefresher ws [orders; daily]).

Definition crawl_records : list MigrationStatus :=
  [mkMigrationStatus "sales" "orders" (Some "main") (Some "sales") (Some "orders") (Some "0");
   mkMigrationStatus "sales" "daily" (Some "main") (Some "sales") (Some "daily") (Some "0");
   mkMigrationStatus "sales" "legacy" None None None (Some "0")].

Definition crawl_trace : St :=
  mkSt [Log WARNING "The table nofullname in sales has no full name";
        Fetch (ShowTblProperties "sales" "orders");
        Log INFO "sales.orders is set as upgraded";
        Fetch (ShowTblProperties "sales" "daily");
        Log INFO "sales.daily is set as upgraded"] [].

(** A SYNC result row with a status code but no description. *)
Definition no_description_backend : Backend :=
  mkBackend (fun _ => true) (fun _ => Some [[("status_code", "FAILED")]]).

(** A workspace with no destination object yet. *)
Definition ws_empty : Workspace := mkWorkspace [] (fun _ => []) (fun _ _ => []) 42.

Definition tm_fresh : TablesMigrate := tm_of ws_empty.

Definition counts : list MigrationCount :=
  [mkMigrationCount "sales" [(EXTERNAL_SYNC, 1%nat); (DBFS_ROOT_DELTA, 1%nat)]].

End Demo.

(** ** Observations on traces *)

Definition is_backend_call (e : Event) : bool :=
  match e with Execute _ | Fetch _ => true | _ => false end.

(** The statements sent to the SQL backend, in order. *)
Definition backend_calls (tr : list Event) : list Event := filter is_backend_call tr.

Definition no_call (e : Event) : Prop := is_backend_call e = false.

Definition is_warning (e : Event) : Prop := exists msg, e = Log WARNING msg.

(** A computation that always succeeds, leaves [_seen_tables] alone and
    only appends events satisfying [P] to the trace. *)
Definition quiet (P : Event -> Prop) {A} (m : M A) (be : Backend) (s : sdict) : Prop :=
  forall st, seen_tables st = s ->
    exists a evs, m be st = (Ok a, mkSt (trace st ++ evs) s) /\ Forall P evs.

Ltac run_m :=
  repeat (unfold bind, ret, raise, emit, log, fetch, execute, next_iter, row_attr, get_seen in *;
          cbn [trace seen_tables fst snd] in *).

(** ** Observations on revert, crawl and index runs *)

(** The eligibility test of [revert_migrated_tables]. *)
Definition revert_eligible (delete_managed : bool) (u : Table) : bool :=
  String.eqb (kind u) "VIEW" || String.eqb (object_type u) "EXTERNAL" || delete_managed.

(** The (table, destination) pairs for which a revert task is built. *)
Definition revert_targets (reverse_seen : sdict) (delete_managed : bool) (cs : list Table)
  : list (Table * string) :=
  flat_map (fun u => if revert_eligible delete_managed u then
                       match dict_get String.eqb reverse_seen (key u) with
                       | Some tg => [(u, tg)]
                       | None => []
                       end
                     else []) cs.

(** The statements the revert sends for one candidate. *)
Definition revert_statements (be : Backend) (delete_managed : bool) (reverse_seen : sdict)
  (u : Table) : list Event :=
  if revert_eligible delete_managed u then
    match dict_get String.eqb reverse_seen (key u) with
    | Some tg => Execute (SqlUnsetUpgradedTo u)
                 :: (if exec_ok be (SqlUnsetUpgradedTo u) then [Execute (SqlDrop (kind u) tg)] else [])
    | None => []
    end
  else [].

Definition revert_events (be : Backend) (p : Table * string) : list Event :=
  let '(u, tg) := p in
  [Log INFO ("Reverting " ++ object_type u ++ " table " ++ database u ++ "." ++ name u
             ++ " upgraded_to " ++ py_str_opt (upgraded_to u));
   Execute (SqlUnsetUpgradedTo u)]
  ++ (if exec_ok be (SqlUnsetUpgradedTo u) then [Execute (SqlDrop (kind u) tg)] else []).

(** One record of the crawl: the source identity, the timestamp, and the
    destination fields, set to the three segments of the destination
    exactly when the inverted index has the source, the point check
    confirms it and the destination has three dot-separated segments. *)
Definition crawl_record_ok (reverse_seen : sdict) (timestamp : string) (be : Backend)
  (t : Table) (rec : MigrationStatus) : Prop :=
  src_schema rec = database t /\ src_table rec = name t /\ update_ts rec = Some timestamp
  /\ ((exists target,
         dict_get String.eqb reverse_seen (key t) = Some target
         /\ fst (is_upgraded (database t) (name t) be (mkSt [] [])) = Ok true
         /\ length (split "." target) = 3
         /\ dst_catalog rec = Some (nth 0 (split "." target) "")
         /\ dst_schema rec = Some (nth 1 (split "." target) "")
         /\ dst_table rec = Some (nth 2 (split "." target) ""))
      \/
      (~ (exists target,
            dict_get String.eqb reverse_seen (key t) = Some target
            /\ fst (is_upgraded (database t) (name t) be (mkSt [] [])) = Ok true
            /\ length (split "." target) = 3)
       /\ dst_catalog rec = None /\ dst_schema rec = None /\ dst_table rec = None)).

(** Every (schema, destination table) pair [get_seen_tables] visits. *)
Definition all_table_infos (ws : Workspace) : list (SchemaInfo * TableInfo) :=
  flat_map (fun s => map (pair s) (tables_list ws (si_catalog_name s) (si_name s))) (iter_schemas ws).

(** [ti] carries an [upgraded_from] property and a non-empty full name,
    and contributes the entry [k -> v]. *)
Definition tagged_entry (ti : TableInfo) (k v : string) : Prop :=
  exists props upgraded_from full_name,
    ti_properties ti = Some props
    /\ dict_get String.eqb props "upgraded_from" = Some upgraded_from
    /\ ti_full_name ti = Some full_name /\ full_name <> ""
    /\ k = lower full_name /\ v = lower upgraded_from.

Definition no_full_name_warning (s : SchemaInfo) (ti : TableInfo) : Event :=
  Log WARNING ("The table " ++ ti_name ti ++ " in " ++ si_name s ++ " has no full name").

(** [m] never reads the trace: run on a trace [tr] it appends to [tr]
    what it appends to the empty trace, with the same result and index. *)
Definition framed {A} (m : M A) : Prop :=
  forall be tr s,
    m be (mkSt tr s) =
      (fst (m be (mkSt [] s)),
       mkSt (tr ++ trace (snd (m be (mkSt [] s)))) (seen_tables (snd (m be (mkSt [] s))))).

(** [m] leaves the held seen index alone. *)
Definition keeps_seen {A} (m : M A) : Prop :=
  forall be st, seen_tables (snd (m be st)) = seen_tables st.

(** [m] neither reads nor writes the held seen index. *)
Definition seen_blind {A} (m : M A) : Prop :=
  forall be tr s1 s2,
    fst (m be (mkSt tr s1)) = fst (m be (mkSt tr s2))
    /\ trace (snd (m be (mkSt tr s1))) = trace (snd (m be (mkSt tr s2)))
    /\ seen_tables (snd (m be (mkSt tr s1))) = s1.

(** The exceptions raised by tasks run one by one from the index [s]. *)
Definition task_errors {A} (be : Backend) (s : sdict) (tasks : list (M A)) : list Exc :=
  flat_map (fun t => match fst (t be (mkSt [] s)) with Err e => [e] | Ok _ => [] end) tasks.

Definition task_events {A} (be : Backend) (s : sdict) (tasks : list (M A)) : list Event :=
  flat_map (fun t => trace (snd (t be (mkSt [] s)))) tasks.

(** The statement a backend call sends. *)
Definition stmt_of_call (e : Event) : option Stmt :=
  match e with
  | Execute s | Fetch s => Some s
  | _ => None
  end.

(** [s] is one of the migration statements for [src_table] to [target]:
    the copy, sync or view creation, or one of the two tags. *)
Definition migration_stmt (src_table : Table) (target : string) (s : Stmt) : Prop :=
  match s with
  | SqlMigrateExternal t k | SqlMigrateDbfs t k | SqlMigrateView t k | SqlAlterTo t k =>
      t = src_table /\ k = target
  | SqlAlterFrom t k _ => t = src_table /\ k = target
  | _ => False
  end.

(** A run of statements sent one after the other, stopping after the
    first that fails. *)
Fixpoint issued (be : Backend) (ss : list Stmt) : list Stmt :=
  match ss with
  | [] => []
  | s :: ss' => s :: (if exec_ok be s then issued be ss' else [])
  end.

Fixpoint first_failure (be : Backend) (ss : list Stmt) : option Stmt :=
  match ss with
  | [] => None
  | s :: ss' => if exec_ok be s then first_failure be ss' else Some s
  end.

(** Sum of [f] over the values of a dict. *)
Definition dict_sum {K V} (f : V -> nat) (d : list (K * V)) : nat :=
  fold_right (fun kv acc => f (snd kv) + acc) 0%nat d.

Definition has_upgraded_to (t : Table) : bool :=
  match upgraded_to t with Some _ => true | None => false end.

(** The value of the [key] column of a [SHOW TBLPROPERTIES] row is [upgraded_to]. *)
Definition is_upgraded_to_row (r : Row) : bool :=
  match dict_get String.eqb r "key" with Some k => String.eqb k "upgraded_to" | None => false end.

(** Every event [m] appends satisfies [P], whatever its result. *)
Definition emits (P : Event -> Prop) {A} (m : M A) : Prop :=
  forall be st, exists evs, trace (snd (m be st)) = (trace st ++ evs)%list /\ Forall P evs.

(** One step of the grouping loop of [_get_revert_count]: append [t] to its database's list. *)
Definition group_step (acc : list (string * list Table)) (t : Table) : list (string * list Table) :=
  dict_set String.eqb acc (database t)
    (match dict_get String.eqb acc (database t) with
     | Some l => (l ++ [t])%list
     | None => [t]
     end).

(** ** Generic lemmas *)

Lemma backend_calls_app (l1 l2 : list Event) :
  backend_calls (l1 ++ l2) = (backend_calls l1 ++ backend_calls l2)%list.
Proof. unfold backend_calls. apply filter_app. Qed.

Lemma Forall_no_call (evs : list Event) : Forall no_call evs -> backend_calls evs = [].
Proof.
  induction 1 as [|e evs He _ IH]; [reflexivity|].
  unfold backend_calls in *. simpl. unfold no_call in He. rewrite He. exact IH.
Qed.

Lemma warning_no_call (e : Event) : is_warning e -> no_call e.
Proof. intros [msg ->]. reflexivity. Qed.

Lemma logs_no_call lvl (evs : list Event) :
  Forall (fun e => exists msg, e = Log lvl msg) evs -> backend_calls evs = [].
Proof.
  intros H. apply Forall_no_call. revert H. apply Forall_impl. intros e [msg ->]. reflexivity.
Qed.

Lemma gather_quiet P {A} (tasks : list (M A)) be s :
  (forall t, In t tasks -> quiet P t be s) ->
  forall st, seen_tables st = s ->
    exists rs evs, gather tasks be st = (Ok (rs, []), mkSt (trace st ++ evs) s)
                   /\ Forall P evs.
Proof.
  induction tasks as [|t ts IH]; intros Hq st Hs.
  - exists [], []. destruct st; simpl in *; subst. rewrite app_nil_r. split; [reflexivity|constructor].
  - destruct (Hq t (or_introl eq_refl) st Hs) as (a & evs1 & Ht & Hb1).
    assert (Hs1 : seen_tables (mkSt (trace st ++ evs1) s) = s) by reflexivity.
    destruct (IH (fun t' Hin => Hq t' (or_intror Hin)) _ Hs1) as (rs & evs2 & Hg & Hb2).
    exists (a :: rs), (evs1 ++ evs2)%list.
    cbn [gather]. unfold bind at 1, try_res. rewrite Ht. unfold bind. rewrite Hg.
    rewrite app_assoc. split; [reflexivity|]. apply Forall_app; split; assumption.
Qed.

Lemma Threads_strict_quiet P {A} name (tasks : list (M A)) be s :
  (forall t, In t tasks -> quiet P t be s) -> quiet P (Threads_strict name tasks) be s.
Proof.
  intros Hq st Hs. destruct (gather_quiet P tasks be s Hq st Hs) as (rs & evs & Hg & Hb).
  exists rs, evs. unfold Threads_strict, bind. rewrite Hg. split; [reflexivity | exact Hb].
Qed.

Lemma quiet_ret P {A} (a : A) be s : quiet P (ret a) be s.
Proof.
  intros st Hs. exists a, []. destruct st; simpl in *; subst.
  rewrite app_nil_r. split; [reflexivity|constructor].
Qed.

Lemma quiet_bind P {A B} (m : M A) (f : A -> M B) be s :
  quiet P m be s -> (forall a, quiet P (f a) be s) -> quiet P (bind m f) be s.
Proof.
  intros Hm Hf st Hs. destruct (Hm st Hs) as (a & evs1 & H1 & Hb1).
  destruct (Hf a (mkSt (trace st ++ evs1) s) eq_refl) as (b & evs2 & H2 & Hb2).
  exists b, (evs1 ++ evs2)%list. unfold bind. rewrite H1. rewrite H2. simpl.
  rewrite app_assoc. split; [reflexivity|]. apply Forall_app; split; assumption.
Qed.

Lemma quiet_log (P : Event -> Prop) lvl msg be s : P (Log lvl msg) -> quiet P (log lvl msg) be s.
Proof.
  intros HP st Hs. exists tt, [Log lvl msg]. destruct st; simpl in *; subst.
  split; [reflexivity|]. constructor; [exact HP | constructor].
Qed.

Lemma quiet_fold_m P {A B} (f : B -> A -> M B) be s :
  (forall b x, quiet P (f b x) be s) -> forall xs b, quiet P (fold_m f b xs) be s.
Proof.
  intros Hf xs. induction xs as [|x xs IH]; intros b; simpl.
  - apply quiet_ret.
  - apply quiet_bind; [apply Hf | intros; apply IH].
Qed.

Lemma quiet_warning lvl msg be s : lvl = WARNING -> quiet is_warning (log lvl msg) be s.
Proof. intros ->. apply quiet_log. eexists. reflexivity. Qed.

Create HintDb quiet.
#[local] Hint Resolve quiet_ret quiet_warning : quiet.

(** [get_seen_tables] only logs warnings: it sends nothing to the SQL
    backend and never raises. *)
Lemma get_seen_tables_quiet ws be s : quiet is_warning (get_seen_tables ws) be s.
Proof.
  unfold get_seen_tables. apply quiet_fold_m. intros b schema.
  apply quiet_fold_m. intros b' table. unfold seen_tables_step.
  destruct (ti_properties table) as [[|p ps]|]; auto with quiet.
  destruct (dict_get String.eqb (p :: ps) "upgraded_from"); auto with quiet.
  destruct (ti_full_name table) as [fn|].
  - destruct (truthy (Some fn)); [apply quiet_ret | apply quiet_bind; auto with quiet].
  - apply quiet_bind; auto with quiet.
Qed.

(** ** Per-object migration *)

Lemma migrate_table_seen self src_table rule be st :
  dict_mem String.eqb (seen_tables st) (as_uc_table_key rule) = true ->
  migrate_table self src_table rule be st =
    (Ok true, mkSt (trace st ++ [Log INFO ("Table " ++ key src_table ++ " already upgraded to "
                                            ++ as_uc_table_key rule)])
                   (seen_tables st)).
Proof.
  intros H. unfold migrate_table, table_already_upgraded, get_seen, bind. rewrite H. reflexivity.
Qed.

Lemma migrate_table_seen_quiet self src_table rule be s :
  dict_mem String.eqb s (as_uc_table_key rule) = true ->
  quiet no_call (migrate_table self src_table rule) be s.
Proof.
  intros H st Hs. subst s. rewrite (migrate_table_seen self src_table rule be st H).
  do 2 eexists. split; [reflexivity|]. repeat constructor.
Qed.

(** C1: an object whose destination is in the seen-objects index is a
    no-op: [_migrate_table] returns [True] after one info log line and
    sends no statement to the backend; hence when every destination of the
    run is in the index loaded at the start of [migrate_tables], the whole
    run sends no statement to the backend. *)
Theorem migrate_table_already_upgraded_noop (self : TablesMigrate) :
  (forall src_table rule be st,
     dict_mem String.eqb (seen_tables st) (as_uc_table_key rule) = true ->
     migrate_table self src_table rule be st =
       (Ok true, mkSt (trace st ++ [Log INFO ("Table " ++ key src_table ++ " already upgraded to "
                                               ++ as_uc_table_key rule)])
                      (seen_tables st)))
  /\
  (forall what_filter be st seen st1,
     get_seen_tables (msr_ws (tm_refresher self)) be st = (Ok seen, st1) ->
     (forall t, In t (tm_tables_to_migrate self) ->
                dict_mem String.eqb seen (as_uc_table_key (rule t)) = true) ->
     exists st', migrate_tables self what_filter be st = (Ok tt, st')
                 /\ backend_calls (trace st') = backend_calls (trace st)).
Proof.
  split.
  - intros. apply migrate_table_seen. assumption.
  - intros what_filter be st seen st1 Hseen Hall.
    destruct (get_seen_tables_quiet (msr_ws (tm_refresher self)) be (seen_tables st) st eq_refl)
      as (seen' & evs1 & H1 & Hb1).
    rewrite Hseen in H1. injection H1 as <- ->.
    apply (Forall_impl _ warning_no_call), Forall_no_call in Hb1.
    assert (Hq : quiet no_call (Threads_strict "migrate tables" (migrate_tables_tasks self what_filter))
                   be seen).
    { apply Threads_strict_quiet. intros t Ht. unfold migrate_tables_tasks in Ht.
      apply in_map_iff in Ht. destruct Ht as (x & <- & Hx). apply filter_In in Hx.
      apply migrate_table_seen_quiet. apply Hall. apply Hx. }
    destruct (Hq (mkSt (trace st ++ evs1) seen) eq_refl) as (r & evs2 & H2 & Hb2).
    apply Forall_no_call in Hb2.
    eexists. unfold migrate_tables, init_seen_tables, bind, set_seen.
    rewrite Hseen. cbv beta iota. cbn [trace seen_tables] in *. rewrite H2. split; [reflexivity|]. simpl.
    rewrite <- app_assoc, !backend_calls_app, Hb1, Hb2, !app_nil_r. reflexivity.
Qed.



(** C2: for an EXTERNAL_SYNC object, [_migrate_external_table] sends the
    SYNC registration statement and reads the [status_code] of the first
    result row.  On ["SUCCESS"] it executes exactly one more statement,
    the [sql_alter_from] tag on the destination carrying the workspace id
    (not the source-side [sql_alter_to] tag), and returns
    [True]; on any other status it executes nothing more, logs a warning
    with the status code and the description, and returns [False] (no
    exception).  [_migrate_table] dispatches such an object, when not
    already seen, to exactly this operation. *)
Theorem migrate_external_table_status (self : TablesMigrate) (src_table : Table) (rule : Rule)
  (be : Backend) (st : St) (sync_result : Row) (rest : list Row) (status_code : string) :
  fetch_rows be (SqlMigrateExternal src_table (as_uc_table_key rule)) = Some (sync_result :: rest) ->
  dict_get String.eqb sync_result "status_code" = Some status_code ->
  (status_code = "SUCCESS" ->
   exec_ok be (SqlAlterFrom src_table (as_uc_table_key rule) (get_workspace_id (tm_ws self))) = true ->
   migrate_external_table self src_table rule be st =
     (Ok true,
      mkSt (trace st ++
            [LogSql DEBUG ("Migrating external table " ++ key src_table ++ " to using SQL query: ")
               (SqlMigrateExternal src_table (as_uc_table_key rule));
             Fetch (SqlMigrateExternal src_table (as_uc_table_key rule));
             Execute (SqlAlterFrom src_table (as_uc_table_key rule) (get_workspace_id (tm_ws self)))])
           (seen_tables st)))
  /\
  (forall description,
   status_code <> "SUCCESS" ->
   dict_get String.eqb sync_result "description" = Some description ->
   migrate_external_table self src_table rule be st =
     (Ok false,
      mkSt (trace st ++
            [LogSql DEBUG ("Migrating external table " ++ key src_table ++ " to using SQL query: ")
               (SqlMigrateExternal src_table (as_uc_table_key rule));
             Fetch (SqlMigrateExternal src_table (as_uc_table_key rule));
             Log WARNING ("SYNC command failed to migrate " ++ key src_table ++ " to "
                          ++ as_uc_table_key rule ++ ". Status code: " ++ status_code
                          ++ ". Description: " ++ description)])
           (seen_tables st)))
  /\
  (what src_table = EXTERNAL_SYNC ->
   dict_mem String.eqb (seen_tables st) (as_uc_table_key rule) = false ->
   migrate_table self src_table rule be st = migrate_external_table self src_table rule be st).
Proof.
  intros Hfetch Hcode. split; [|split].
  - intros -> Hok. unfold migrate_external_table. run_m.
    rewrite Hfetch. run_m. rewrite Hcode. cbn. rewrite Hok.
    cbn [trace seen_tables]. rewrite <- !app_assoc. reflexivity.
  - intros description Hne Hdesc. unfold migrate_external_table. run_m.
    rewrite Hfetch. run_m. rewrite Hcode.
    apply String.eqb_neq in Hne. rewrite Hne. cbn. rewrite Hdesc.
    cbn [trace seen_tables]. rewrite <- !app_assoc. reflexivity.
  - intros Hw Hm. unfold migrate_table, table_already_upgraded, get_seen, bind at 1 2, ret at 1. cbv beta iota.
    rewrite Hm. cbn. rewrite Hw. reflexivity.
Qed.

(** C2 as stated fails: on ["SUCCESS"] the one tagging statement
    [_migrate_external_table] executes for [Demo.orders] is
    [sql_alter_from] on the destination, carrying the workspace id (the
    destination-side migrated-from tag); the source-side migrated-to tag
    [sql_alter_to] is not sent, towards any target. *)
Lemma migrate_external_table_tag_counterexample :
  In (Execute (SqlAlterFrom Demo.orders (as_uc_table_key Demo.orders_rule) (get_workspace_id (tm_ws Demo.tm))))
     (trace (snd (migrate_external_table Demo.tm Demo.orders Demo.orders_rule (Demo.backend "SUCCESS") Demo.st0)))
  /\ forall target,
       ~ In (Execute (SqlAlterTo Demo.orders target))
            (trace (snd (migrate_external_table Demo.tm Demo.orders Demo.orders_rule
                           (Demo.backend "SUCCESS") Demo.st0))).
Proof.
  split.
  - vm_compute. right; right; left; reflexivity.
  - intros target. vm_compute. intros H. repeat (destruct H as [H|H]; [discriminate|]). exact H.
Qed.

(** C7: for a DBFS_ROOT_DELTA object, [_migrate_dbfs_root_table] executes
    exactly three statements in this order: the deep copy, the
    [sql_alter_to] tag and the [sql_alter_from] tag carrying the workspace
    id; when the deep copy raises, no tagging statement is sent and the
    error propagates. *)
Theorem migrate_dbfs_root_table_sequence (self : TablesMigrate) (src_table : Table) (rule : Rule)
  (be : Backend) (st : St) :
  (exec_ok be (SqlMigrateDbfs src_table (as_uc_table_key rule)) = true ->
   exec_ok be (SqlAlterTo src_table (as_uc_table_key rule)) = true ->
   exec_ok be (SqlAlterFrom src_table (as_uc_table_key rule) (get_workspace_id (tm_ws self))) = true ->
   migrate_dbfs_root_table self src_table rule be st =
     (Ok true,
      mkSt (trace st ++
            [LogSql DEBUG ("Migrating managed table " ++ key src_table ++ " to using SQL query: ")
               (SqlMigrateDbfs src_table (as_uc_table_key rule));
             Execute (SqlMigrateDbfs src_table (as_uc_table_key rule));
             Execute (SqlAlterTo src_table (as_uc_table_key rule));
             Execute (SqlAlterFrom src_table (as_uc_table_key rule) (get_workspace_id (tm_ws self)))])
           (seen_tables st)))
  /\
  (exec_ok be (SqlMigrateDbfs src_table (as_uc_table_key rule)) = false ->
   migrate_dbfs_root_table self src_table rule be st =
     (Err (SqlError (SqlMigrateDbfs src_table (as_uc_table_key rule))),
      mkSt (trace st ++
            [LogSql DEBUG ("Migrating managed table " ++ key src_table ++ " to using SQL query: ")
               (SqlMigrateDbfs src_table (as_uc_table_key rule));
             Execute (SqlMigrateDbfs src_table (as_uc_table_key rule))])
           (seen_tables st))).
Proof.
  split.
  - intros H1 H2 H3. unfold migrate_dbfs_root_table. run_m.
    rewrite H1. run_m. rewrite H2. run_m. rewrite H3. cbn [trace seen_tables]. rewrite <- !app_assoc. reflexivity.
  - intros H1. unfold migrate_dbfs_root_table. run_m. rewrite H1. rewrite <- !app_assoc.
    reflexivity.
Qed.

(** C8: an object whose classification is none of DBFS_ROOT_DELTA,
    EXTERNAL_SYNC and VIEW, and whose destination is not in the seen index,
    is a no-op: [_migrate_table] returns [True] after one info log line and
    sends no statement to the backend. *)
Theorem migrate_table_unsupported_noop (self : TablesMigrate) (src_table : Table) (rule : Rule)
  (be : Backend) (st : St) :
  what src_table <> DBFS_ROOT_DELTA -> what src_table <> EXTERNAL_SYNC -> what src_table <> VIEW ->
  dict_mem String.eqb (seen_tables st) (as_uc_table_key rule) = false ->
  migrate_table self src_table rule be st =
    (Ok true, mkSt (trace st ++ [Log INFO ("Table " ++ key src_table ++ " is not supported for migration")])
                   (seen_tables st)).
Proof.
  intros H1 H2 H3 Hm. unfold migrate_table, table_already_upgraded, get_seen, bind at 1 2, ret at 1. cbv beta iota.
  rewrite Hm. cbn.
  destruct (what src_table); try contradiction. reflexivity.
Qed.

(** C10: when the backend's fetch of the SYNC statement yields no row,
    [_migrate_external_table] raises [StopIteration] (from
    [next(iter(...))]) instead of returning [False]; so does
    [_migrate_table] for such an EXTERNAL_SYNC object not yet seen. *)
Theorem migrate_external_table_empty_fetch_raises (self : TablesMigrate) (src_table : Table)
  (rule : Rule) (be : Backend) (st : St) :
  fetch_rows be (SqlMigrateExternal src_table (as_uc_table_key rule)) = Some [] ->
  migrate_external_table self src_table rule be st =
    (Err StopIteration,
     mkSt (trace st ++
           [LogSql DEBUG ("Migrating external table " ++ key src_table ++ " to using SQL query: ")
              (SqlMigrateExternal src_table (as_uc_table_key rule));
            Fetch (SqlMigrateExternal src_table (as_uc_table_key rule))])
          (seen_tables st))
  /\
  (what src_table = EXTERNAL_SYNC ->
   dict_mem String.eqb (seen_tables st) (as_uc_table_key rule) = false ->
   fst (migrate_table self src_table rule be st) = Err StopIteration).
Proof.
  intros Hfetch.
  assert (H : migrate_external_table self src_table rule be st =
    (Err StopIteration,
     mkSt (trace st ++
           [LogSql DEBUG ("Migrating external table " ++ key src_table ++ " to using SQL query: ")
              (SqlMigrateExternal src_table (as_uc_table_key rule));
            Fetch (SqlMigrateExternal src_table (as_uc_table_key rule))])
          (seen_tables st))).
  { unfold migrate_external_table. run_m. rewrite Hfetch. cbn [trace seen_tables]. rewrite <- !app_assoc. reflexivity. }
  split; [exact H|].
  intros Hw Hm. unfold migrate_table, table_already_upgraded, get_seen, bind at 1 2, ret at 1. cbv beta iota.
  rewrite Hm. cbn. rewrite Hw. rewrite H. reflexivity.
Qed.

(** ** Revert *)

Lemma dict_get_set (d : sdict) k v k' :
  dict_get String.eqb (dict_set String.eqb d k v) k' =
  if String.eqb k k' then Some v else dict_get String.eqb d k'.
Proof.
  induction d as [|[a b] d IH]; simpl.
  - destruct (String.eqb k k'); reflexivity.
  - destruct (String.eqb_spec a k) as [->|Hak]; simpl.
    + destruct (String.eqb k k'); reflexivity.
    + rewrite IH. destruct (String.eqb_spec a k') as [->|]; destruct (String.eqb_spec k k');
        congruence.
Qed.

Lemma dict_mem_reverse (d : sdict) k :
  dict_mem String.eqb (reverse_dict d) k = in_values k d.
Proof.
  unfold reverse_dict, in_values.
  assert (H : forall acc, dict_mem String.eqb (fold_left (fun acc kv => dict_set String.eqb acc (snd kv) (fst kv)) d acc) k
                          = dict_mem String.eqb acc k || existsb (String.eqb k) (map snd d)).
  { induction d as [|[a b] d IH]; intros acc; simpl.
    - rewrite orb_false_r. reflexivity.
    - rewrite IH. unfold dict_mem at 1. rewrite dict_get_set. rewrite (String.eqb_sym b k).
      unfold dict_mem. destruct (String.eqb k b), (dict_get String.eqb acc k),
        (existsb (String.eqb k) (map snd d)); reflexivity. }
  rewrite H. reflexivity.
Qed.

Lemma get_tables_to_revert_run self schema table be st :
  exists evs,
    get_tables_to_revert self schema table be st =
      (Ok (filter (revert_candidate (lower_opt schema) (lower_opt table) (seen_tables st)) (tm_tc self)),
       mkSt (trace st ++ evs) (seen_tables st))
    /\ Forall (fun e => exists msg, e = Log ERROR msg) evs.
Proof.
  unfold get_tables_to_revert.
  destruct (truthy (lower_opt table) && negb (truthy (lower_opt schema))).
  - exists [Log ERROR "Cannot accept 'Table' parameter without 'Schema' parameter"]. run_m.
    split; [reflexivity|]. repeat econstructor.
  - exists []. run_m. rewrite app_nil_r. destruct st. split; [reflexivity | constructor].
Qed.

Lemma revert_tasks_step_eq rev dm tasks u :
  revert_tasks_step rev dm tasks u =
  if revert_eligible dm u then
    match dict_get String.eqb rev (key u) with
    | Some target => ret (tasks ++ [revert_migrated_table u target])%list
    | None => raise (KeyError (key u))
    end
  else
    log INFO ("Skipping " ++ object_type u ++ " Table " ++ database u ++ "." ++ name u
              ++ " upgraded_to " ++ py_str_opt (upgraded_to u)) ;;;
    ret tasks.
Proof. reflexivity. Qed.

Lemma revert_tasks_fold rev dm cs be :
  (forall u, In u cs -> dict_mem String.eqb rev (key u) = true) ->
  forall tasks st, exists evs,
    fold_m (revert_tasks_step rev dm) tasks cs be st =
      (Ok (tasks ++ map (fun p => revert_migrated_table (fst p) (snd p)) (revert_targets rev dm cs))%list,
       mkSt (trace st ++ evs) (seen_tables st))
    /\ Forall (fun e => exists msg, e = Log INFO msg) evs.
Proof.
  induction cs as [|u cs IH]; intros Hmem tasks st.
  - exists []. simpl. rewrite !app_nil_r. destruct st. split; [reflexivity | constructor].
  - assert (Hu : dict_mem String.eqb rev (key u) = true) by (apply Hmem; left; reflexivity).
    assert (IH' := IH (fun u' H => Hmem u' (or_intror H))).
    cbn [fold_m]. unfold bind at 1. rewrite revert_tasks_step_eq.
    change (revert_targets rev dm (u :: cs)) with
      ((if revert_eligible dm u then
          match dict_get String.eqb rev (key u) with Some tg => [(u, tg)] | None => [] end
        else []) ++ revert_targets rev dm cs)%list.
    destruct (revert_eligible dm u).
    + unfold dict_mem in Hu. destruct (dict_get String.eqb rev (key u)) as [tg|]; [|discriminate].
      unfold ret at 1. destruct (IH' (tasks ++ [revert_migrated_table u tg])%list st) as (evs & H & HF).
      exists evs. rewrite H. simpl. rewrite <- app_assoc. split; [reflexivity | exact HF].
    + run_m. destruct (IH' tasks (mkSt (trace st ++ [Log INFO ("Skipping " ++ object_type u ++ " Table "
              ++ database u ++ "." ++ name u ++ " upgraded_to " ++ py_str_opt (upgraded_to u))])
              (seen_tables st))) as (evs & H & HF).
      eexists. rewrite H. cbn [trace seen_tables]. rewrite <- app_assoc. split; [reflexivity|].
      constructor; [eexists; reflexivity | exact HF].
Qed.

Lemma revert_migrated_table_run be u tg st :
  exists r, revert_migrated_table u tg be st =
              (r, mkSt (trace st ++ revert_events be (u, tg)) (seen_tables st)).
Proof.
  unfold revert_migrated_table, revert_events. run_m.
  destruct (exec_ok be (SqlUnsetUpgradedTo u)) eqn:E1.
  - run_m. destruct (exec_ok be (SqlDrop (kind u) tg)); eexists; rewrite <- !app_assoc; reflexivity.
  - eexists. rewrite <- !app_assoc. reflexivity.
Qed.

Lemma gather_map_trace {X A} (task : X -> M A) (ev : X -> list Event) be (xs : list X) :
  (forall x st, exists r, task x be st = (r, mkSt (trace st ++ ev x) (seen_tables st))) ->
  forall st, exists res,
    gather (map task xs) be st = (Ok res, mkSt (trace st ++ flat_map ev xs) (seen_tables st)).
Proof.
  intros Ht. induction xs as [|x xs IH]; intros st.
  - eexists. simpl. rewrite app_nil_r. destruct st. reflexivity.
  - destruct (Ht x st) as (r & Hx).
    destruct (IH (mkSt (trace st ++ ev x) (seen_tables st))) as (res & Hg).
    cbn [map gather]. unfold bind at 1, try_res. rewrite Hx. unfold bind. rewrite Hg.
    cbn [trace seen_tables flat_map]. rewrite <- app_assoc.
    destruct r; eexists; reflexivity.
Qed.

Lemma Threads_strict_map_trace {X A} name (task : X -> M A) (ev : X -> list Event) be xs :
  (forall x st, exists r, task x be st = (r, mkSt (trace st ++ ev x) (seen_tables st))) ->
  forall st, exists r,
    Threads_strict name (map task xs) be st = (r, mkSt (trace st ++ flat_map ev xs) (seen_tables st)).
Proof.
  intros Ht st. destruct (gather_map_trace task ev be xs Ht st) as (res & Hg).
  unfold Threads_strict, bind. rewrite Hg. destruct (snd res); eexists; reflexivity.
Qed.

Lemma backend_calls_revert_targets be rev dm cs :
  backend_calls (flat_map (revert_events be) (revert_targets rev dm cs)) =
  flat_map (revert_statements be dm rev) cs.
Proof.
  induction cs as [|u cs IH]; [reflexivity|].
  change (revert_targets rev dm (u :: cs)) with
    ((if revert_eligible dm u then
        match dict_get String.eqb rev (key u) with Some tg => [(u, tg)] | None => [] end
      else []) ++ revert_targets rev dm cs)%list.
  cbn [flat_map]. rewrite flat_map_app, backend_calls_app, IH. f_equal.
  unfold revert_statements.
  destruct (revert_eligible dm u); [|reflexivity].
  destruct (dict_get String.eqb rev (key u)) as [tg|]; [|reflexivity].
  cbn [flat_map]. rewrite app_nil_r. unfold revert_events, backend_calls.
  simpl. destruct (exec_ok be (SqlUnsetUpgradedTo u)); reflexivity.
Qed.

(** C3 (amended): the revert sends, for each selected candidate in order,
    the statements [revert_statements]: for an eligible one (a view, an
    external table, or any table when [delete_managed]) the tag-clear and,
    if that succeeds, the drop of its destination; for a managed one while
    [delete_managed] is false, nothing at all (it is only logged as
    skipped, its migrated-to tag is not cleared either). *)
Theorem revert_migrated_tables_managed_gating (self : TablesMigrate) schema table delete_managed
  (be : Backend) (st : St) (seen : sdict) (st1 : St) :
  get_seen_tables (msr_ws (tm_refresher self)) be st = (Ok seen, st1) ->
  (exists r st',
     revert_migrated_tables self schema table delete_managed be st = (r, st')
     /\ backend_calls (trace st') =
          (backend_calls (trace st)
           ++ flat_map (revert_statements be delete_managed (reverse_dict seen))
                (filter (revert_candidate (lower_opt schema) (lower_opt table) seen) (tm_tc self)))%list)
  /\
  (forall u, kind u <> "VIEW" -> object_type u <> "EXTERNAL" ->
             revert_statements be false (reverse_dict seen) u = [])
  /\
  (forall u, In u (filter (revert_candidate (lower_opt schema) (lower_opt table) seen) (tm_tc self)) ->
     exists tg, dict_get String.eqb (reverse_dict seen) (key u) = Some tg
       /\ revert_statements be true (reverse_dict seen) u =
            Execute (SqlUnsetUpgradedTo u)
            :: (if exec_ok be (SqlUnsetUpgradedTo u) then [Execute (SqlDrop (kind u) tg)] else [])).
Proof.
  intros Hseen.
  assert (Hmem : forall u, In u (filter (revert_candidate (lower_opt schema) (lower_opt table) seen) (tm_tc self)) ->
                 dict_mem String.eqb (reverse_dict seen) (key u) = true).
  { intros u Hu. apply filter_In in Hu. destruct Hu as [_ Hc]. unfold revert_candidate in Hc.
    apply andb_prop in Hc. destruct Hc as [_ Hc]. rewrite dict_mem_reverse. exact Hc. }
  split; [|split].
  - destruct (get_seen_tables_quiet (msr_ws (tm_refresher self)) be (seen_tables st) st eq_refl)
      as (seen' & evs1 & H1 & Hb1).
    rewrite Hseen in H1. injection H1 as <- ->.
    apply (Forall_impl _ warning_no_call), Forall_no_call in Hb1.
    destruct (get_tables_to_revert_run self schema table be (mkSt (trace st ++ evs1) seen))
      as (evs2 & H2 & Hb2).
    cbn [seen_tables trace] in H2.
    destruct (revert_tasks_fold (reverse_dict seen) delete_managed _ be Hmem []
                (mkSt ((trace st ++ evs1) ++ evs2) seen)) as (evs3 & H3 & Hb3).
    cbn [seen_tables app] in H3.
    destruct (Threads_strict_map_trace "revert migrated tables"
                (fun p => revert_migrated_table (fst p) (snd p)) (revert_events be) be
                (revert_targets (reverse_dict seen) delete_managed
                   (filter (revert_candidate (lower_opt schema) (lower_opt table) seen) (tm_tc self)))
                (fun x st => match x with (u, tg) => revert_migrated_table_run be u tg st end)
                (mkSt (((trace st ++ evs1) ++ evs2) ++ evs3) seen))
      as (r & H4).
    unfold revert_migrated_tables, init_seen_tables, bind, set_seen, get_seen.
    rewrite Hseen. cbv beta iota. cbn [trace seen_tables] in *. rewrite H2. cbv beta iota.
    cbn [seen_tables]. rewrite H3. cbv beta iota. rewrite H4.
    apply logs_no_call in Hb2. apply logs_no_call in Hb3.
    destruct r; (eexists; eexists; split; [reflexivity|]); cbn [trace];
      rewrite !backend_calls_app, Hb1, Hb2, Hb3, backend_calls_revert_targets, !app_nil_r;
      reflexivity.
  - intros u Hk Ho. unfold revert_statements, revert_eligible.
    apply String.eqb_neq in Hk, Ho. rewrite Hk, Ho. reflexivity.
  - intros u Hu. specialize (Hmem u Hu). unfold dict_mem in Hmem.
    destruct (dict_get String.eqb (reverse_dict seen) (key u)) as [tg|] eqn:E; [|discriminate].
    exists tg. split; [reflexivity|]. unfold revert_statements, revert_eligible.
    rewrite !orb_true_r, E. reflexivity.
Qed.

(** C3 as stated fails: the managed table [Demo.daily] is a revert
    candidate, yet with [delete_managed = false] the revert does not clear
    its migrated-to tag (no statement at all is sent for it). *)
Lemma revert_managed_keeps_tag_counterexample :
  In Demo.daily (fst (match get_tables_to_revert Demo.tm None None Demo.empty_fetch_backend Demo.st_seen with
                      | (Ok l, _) => (l, tt) | _ => ([], tt) end))
  /\ ~ In (Execute (SqlUnsetUpgradedTo Demo.daily))
         (trace (snd (revert_migrated_tables Demo.tm None None false Demo.empty_fetch_backend Demo.st0))).
Proof.
  split.
  - vm_compute. right; left; reflexivity.
  - vm_compute. intros H. repeat (destruct H as [H|H]; [discriminate|]). exact H.
Qed.

(** C4 (code bug): with a table filter but no schema filter,
    [_get_tables_to_revert] logs its "Cannot accept" error and then still
    applies the table filter: here it returns the migrated table
    [sales.orders] instead of no candidate. *)
Theorem get_tables_to_revert_table_without_schema :
  get_tables_to_revert Demo.tm None (Some "Orders") Demo.empty_fetch_backend Demo.st_seen =
    (Ok [Demo.orders],
     mkSt [Log ERROR "Cannot accept 'Table' parameter without 'Schema' parameter"] Demo.seen).
Proof. vm_compute. reflexivity. Qed.

(** ** Revert report *)

Lemma dict_set_not_nil {K V} (keqb : K -> K -> bool) (d : list (K * V)) k v :
  dict_set keqb d k v <> [].
Proof. destruct d as [|[a b] d]; simpl; [discriminate|]. destruct (keqb a k); discriminate. Qed.

Lemma group_by_database_nil (l : list Table) : group_by_database l = [] <-> l = [].
Proof.
  split; [|intros ->; reflexivity].
  destruct l as [|t l]; [reflexivity|]. unfold group_by_database. simpl.
  assert (H : forall l' acc, acc <> [] ->
             fold_left (fun acc t => dict_set String.eqb acc (database t)
                          (match dict_get String.eqb acc (database t) with
                           | Some l => (l ++ [t])%list | None => [t] end)) l' acc <> []).
  { induction l' as [|x l' IH]; intros acc Hacc; simpl; [exact Hacc|].
    apply IH. apply dict_set_not_nil. }
  intros E. exfalso. revert E. apply H. discriminate.
Qed.

Lemma get_revert_count_run self schema table be st seen st1 :
  get_seen_tables (msr_ws (tm_refresher self)) be st = (Ok seen, st1) ->
  exists evs,
    get_revert_count self schema table be st =
      (Ok (map (fun dt => mkMigrationCount (fst dt) (count_what (snd dt)))
             (group_by_database
                (filter (revert_candidate (lower_opt schema) (lower_opt table) seen) (tm_tc self)))),
       mkSt (trace st ++ evs) seen)
    /\ Forall (fun e => is_warning e \/ exists msg, e = Log ERROR msg) evs.
Proof.
  intros Hseen.
  destruct (get_seen_tables_quiet (msr_ws (tm_refresher self)) be (seen_tables st) st eq_refl)
    as (seen' & evs1 & H1 & Hb1).
  rewrite Hseen in H1. injection H1 as <- ->.
  destruct (get_tables_to_revert_run self schema table be (mkSt (trace st ++ evs1) seen))
    as (evs2 & H2 & Hb2).
  cbn [seen_tables trace] in H2.
  exists (evs1 ++ evs2)%list.
  unfold get_revert_count, init_seen_tables, bind, set_seen.
  rewrite Hseen. cbv beta iota. cbn [trace seen_tables]. rewrite H2.
  split; [unfold ret; rewrite <- app_assoc; reflexivity|].
  apply Forall_app; split; [revert Hb1 | revert Hb2]; apply Forall_impl; auto.
Qed.

Lemma quiet_print lines be s :
  quiet (fun e => exists line, e = Print line) (for_each lines print) be s.
Proof.
  induction lines as [|l lines IH]; simpl; [apply quiet_ret|].
  apply quiet_bind; [|intros; exact IH].
  intros st Hs. exists tt, [Print l]. destruct st; simpl in *; subst.
  split; [reflexivity|]. repeat econstructor.
Qed.

(** C9: [print_revert_report] returns [False] and logs "No migrated
    tables were found." exactly when the per-database count list of
    [_get_revert_count] is empty, which is exactly when there is no revert
    candidate; it returns [True] otherwise, never raises, and sends no
    statement to the SQL backend in either case. *)
Theorem print_revert_report_result (self : TablesMigrate) (delete_managed : bool)
  (be : Backend) (st : St) (seen : sdict) (st1 : St) :
  get_seen_tables (msr_ws (tm_refresher self)) be st = (Ok seen, st1) ->
  exists r evs,
    print_revert_report self delete_managed be st = (Ok r, mkSt (trace st ++ evs) seen)
    /\ backend_calls evs = []
    /\ (r = false <-> fst (get_revert_count self None None be st) = Ok [])
    /\ (r = false <-> filter (revert_candidate None None seen) (tm_tc self) = [])
    /\ (r = false <-> In (Log INFO "No migrated tables were found.") evs).
Proof.
  intros Hseen.
  destruct (get_revert_count_run self None None be st seen st1 Hseen) as (evs1 & H1 & Hb1).
  assert (Hnc : backend_calls evs1 = []).
  { apply Forall_no_call. revert Hb1. apply Forall_impl.
    intros e [[m ->]|[m ->]]; reflexivity. }
  assert (Hni : ~ In (Log INFO "No migrated tables were found.") evs1).
  { intros Hin. rewrite Forall_forall in Hb1. destruct (Hb1 _ Hin) as [[m Hm]|[m Hm]];
      discriminate. }
  cbn [lower_opt truthy] in H1.
  unfold print_revert_report, bind at 1. rewrite H1. cbv beta iota.
  cbn [fst].
  set (cands := filter (revert_candidate None None seen) (tm_tc self)) in *.
  destruct (map (fun dt => mkMigrationCount (fst dt) (count_what (snd dt)))
              (group_by_database cands)) as [|mc mcs] eqn:Emc.
  - apply map_eq_nil, group_by_database_nil in Emc.
    exists false, (evs1 ++ [Log INFO "No migrated tables were found."])%list.
    run_m. rewrite <- app_assoc. split; [reflexivity|].
    rewrite backend_calls_app, Hnc. split; [reflexivity|].
    split; [tauto|]. split; [tauto|]. split; [intros _; apply in_or_app; right; left; reflexivity | reflexivity].
  - destruct (quiet_print (report_lines (mc :: mcs) delete_managed) be seen
                (mkSt (trace st ++ evs1) seen) eq_refl) as (u & evs2 & H2 & Hb2).
    exists true, (evs1 ++ evs2)%list.
    unfold bind. rewrite H2. unfold ret. cbn [trace]. rewrite <- app_assoc. split; [reflexivity|].
    rewrite backend_calls_app, Hnc.
    split; [apply Forall_no_call; revert Hb2; apply Forall_impl; intros e [l ->]; reflexivity|].
    split; [split; [discriminate | intros H; discriminate H]|].
    split; [split; [discriminate|] |].
    + intros Hc. rewrite Hc in Emc. discriminate Emc.
    + split; [discriminate|]. intros Hin. apply in_app_or in Hin. destruct Hin as [Hin|Hin];
        [contradiction|]. rewrite Forall_forall in Hb2. destruct (Hb2 _ Hin) as [l Hl]. discriminate.
Qed.

(** ** Migration status crawl *)

Lemma is_upgraded_rows_state schema table rows be st st' :
  fst (is_upgraded_rows schema table rows be st) = fst (is_upgraded_rows schema table rows be st').
Proof.
  revert st st'. induction rows as [|r rows IH]; intros st st'; simpl.
  - reflexivity.
  - unfold row_item. destruct (dict_get String.eqb r "key") as [k|]; [|reflexivity].
    unfold bind, ret. destruct (String.eqb k "upgraded_to"); [reflexivity|]. apply IH.
Qed.

(** The point check's answer does not depend on the trace or the index. *)
Lemma is_upgraded_state schema table be st st' :
  fst (is_upgraded schema table be st) = fst (is_upgraded schema table be st').
Proof.
  unfold is_upgraded, bind, fetch. destruct (fetch_rows be (ShowTblProperties schema table)); [|reflexivity].
  apply is_upgraded_rows_state.
Qed.

Lemma map_m_Forall2 {A B} (f : A -> M B) be (xs : list A) :
  forall ys st st', map_m f xs be st = (Ok ys, st') ->
    Forall2 (fun x y => exists st1 st2, f x be st1 = (Ok y, st2)) xs ys.
Proof.
  induction xs as [|x xs IH]; intros ys st st' H; simpl in H.
  - injection H as <- _. constructor.
  - unfold bind in H. destruct (f x be st) as [[y|e] st1] eqn:E; [|discriminate].
    destruct (map_m f xs be st1) as [[ys'|e] st2] eqn:E2; [|discriminate].
    unfold ret in H. injection H as <- _. constructor; [eauto | eapply IH; eauto].
Qed.

Lemma crawl_one_ok rev ts t be st rec st' :
  crawl_one rev ts t be st = (Ok rec, st') -> crawl_record_ok rev ts be t rec.
Proof.
  unfold crawl_one, crawl_record_ok, dict_mem. intros H.
  destruct (dict_get String.eqb rev (key t)) as [target|] eqn:Eg.
  - unfold bind in H. destruct (is_upgraded (database t) (name t) be st) as [[up|e] st1] eqn:Eu;
      [|discriminate].
    assert (Hup : fst (is_upgraded (database t) (name t) be (mkSt [] [])) = Ok up).
    { rewrite (is_upgraded_state _ _ be _ st), Eu. reflexivity. }
    destruct up.
    + destruct (Nat.eqb_spec (length (split "." target)) 3) as [E3|E3];
        unfold ret in H; injection H as <- _; simpl; (split; [reflexivity|]); (split; [reflexivity|]);
        (split; [reflexivity|]).
      * left. exists target. repeat split; assumption || reflexivity.
      * right. split; [|repeat split]. intros (tg & Htg & _ & H3). injection Htg as <-. contradiction.
    + unfold ret in H. injection H as <- _. simpl. repeat (split; [reflexivity|]).
      right. split; [|repeat split]. intros (tg & _ & Hu & _). rewrite Hup in Hu. discriminate.
  - unfold ret in H. injection H as <- _. simpl. repeat (split; [reflexivity|]).
    right. split; [|repeat split]. intros (tg & Htg & _). discriminate.
Qed.

(** C5 (amended): the crawl that refreshes the migration status yields
    one record per source object, in inventory order (no omission, no
    duplicate), and a record's destination fields are set exactly when the
    inverted seen index has the source identity, the point check
    [is_upgraded] confirms the migrated-to tag, and the destination
    identity has exactly three dot-separated segments; they are then its
    three segments. *)
Theorem crawl_one_record_per_object (self : MigrationStatusRefresher) (timestamp : string)
  (be : Backend) (st : St) (seen : sdict) (st1 : St) (recs : list MigrationStatus) (st' : St) :
  get_seen_tables (msr_ws self) be st = (Ok seen, st1) ->
  crawl self timestamp be st = (Ok recs, st') ->
  Forall2 (crawl_record_ok (reverse_dict seen) timestamp be) (msr_table_crawler self) recs.
Proof.
  intros Hseen Hc. unfold crawl, bind in Hc. rewrite Hseen in Hc.
  apply map_m_Forall2 in Hc. revert Hc. apply Forall2_impl.
  intros t rec (st2 & st3 & H). eapply crawl_one_ok. exact H.
Qed.

(** C5 as stated fails: the destination [main.orders] of [sales.orders]
    is in the seen index and the point check confirms the tag, yet the
    record's destination fields stay unset (two segments only). *)
Lemma crawl_two_part_destination_counterexample :
  fst (get_seen_tables Demo.ws_two_parts (Demo.backend "SUCCESS") Demo.st0)
    = Ok [("main.orders", "hive_metastore.sales.orders")]
  /\ dict_mem String.eqb (reverse_dict [("main.orders", "hive_metastore.sales.orders")])
       (key Demo.orders) = true
  /\ fst (is_upgraded "sales" "orders" (Demo.backend "SUCCESS") Demo.st0) = Ok true
  /\ fst (crawl (mkMigrationStatusRefresher Demo.ws_two_parts [Demo.orders]) "0"
            (Demo.backend "SUCCESS") Demo.st0)
     = Ok [mkMigrationStatus "sales" "orders" None None None (Some "0")].
Proof. vm_compute. repeat split. Qed.

(** ** Seen-objects index *)

Lemma lower_char_idem (c : ascii) : lower_char (lower_char c) = lower_char c.
Proof.
  destruct c as [b0 b1 b2 b3 b4 b5 b6 b7].
  destruct b0, b1, b2, b3, b4, b5, b6, b7; vm_compute; reflexivity.
Qed.

Lemma lower_idem (s : string) : lower (lower s) = lower s.
Proof. induction s as [|c s IH]; simpl; [reflexivity|]. rewrite lower_char_idem, IH. reflexivity. Qed.

Lemma fold_m_nested {X Y B} (g : X -> B -> Y -> M B) (ys : X -> list Y) (xs : list X) :
  forall b be st,
    fold_m (fun b x => fold_m (g x) b (ys x)) b xs be st =
    fold_m (fun b p => g (fst p) b (snd p)) b (flat_map (fun x => map (pair x) (ys x)) xs) be st.
Proof.
  assert (Happ : forall (f : B -> (X * Y) -> M B) l1 l2 b be st,
             fold_m f b (l1 ++ l2) be st =
             match fold_m f b l1 be st with
             | (Ok b', st') => fold_m f b' l2 be st'
             | (Err e, st') => (Err e, st')
             end).
  { induction l1 as [|p l1 IH]; intros l2 b be st; simpl.
    - reflexivity.
    - unfold bind. destruct (f b p be st) as [[b1|e] st1]; [apply IH | reflexivity]. }
  assert (Hin : forall x l b be st,
             fold_m (g x) b l be st = fold_m (fun b p => g (fst p) b (snd p)) b (map (pair x) l) be st).
  { intros x l. induction l as [|y l IH]; intros b be st; simpl; [reflexivity|].
    unfold bind. destruct (g x b y be st) as [[b1|e] st1]; [apply IH | reflexivity]. }
  induction xs as [|x xs IH]; intros b be st; simpl; [reflexivity|].
  rewrite Happ. unfold bind. rewrite <- Hin.
  destruct (fold_m (g x) b (ys x) be st) as [[b1|e] st1]; [apply IH | reflexivity].
Qed.

Lemma tagged_entry_unique ti k v k' v' :
  tagged_entry ti k v -> tagged_entry ti k' v' -> k = k' /\ v = v'.
Proof.
  intros (p & f & n & Hp & Hf & Hn & _ & -> & ->) (p' & f' & n' & Hp' & Hf' & Hn' & _ & -> & ->).
  rewrite Hp in Hp'. injection Hp' as <-. rewrite Hf in Hf'. injection Hf' as <-.
  rewrite Hn in Hn'. injection Hn' as <-. split; reflexivity.
Qed.

Lemma in_dict_set (d : sdict) k0 v0 k v :
  In (k, v) (dict_set String.eqb d k0 v0) -> (k, v) = (k0, v0) \/ In (k, v) d.
Proof.
  induction d as [|[a b] d IH]; simpl.
  - intros [H|[]]. left; symmetry; exact H.
  - destruct (String.eqb_spec a k0) as [->|]; simpl.
    + intros [H|H]; [left; symmetry; exact H | right; right; exact H].
    + intros [H|H]; [right; left; exact H|]. destruct (IH H); [left | right; right]; assumption.
Qed.

Lemma seen_tables_step_spec s b ti be st b' st' :
  seen_tables_step s b ti be st = (Ok b', st') ->
  seen_tables st' = seen_tables st
  /\ (exists evs, trace st' = (trace st ++ evs)%list)
  /\ ((exists k v, tagged_entry ti k v /\ b' = dict_set String.eqb b k v)
      \/ (b' = b /\ ~ exists k v, tagged_entry ti k v))
  /\ (forall props upgraded_from, ti_properties ti = Some props ->
        dict_get String.eqb props "upgraded_from" = Some upgraded_from ->
        truthy (ti_full_name ti) = false -> In (no_full_name_warning s ti) (trace st')).
Proof.
  unfold seen_tables_step.
  destruct (ti_properties ti) as [[|p ps]|] eqn:Ep.
  - unfold ret. intros H; injection H as <- <-.
    split; [reflexivity|]. split; [exists []; rewrite app_nil_r; reflexivity|].
    split.
    + right. split; [reflexivity|]. intros (k & v & props & f & n & Hp & Hf & _).
      rewrite Ep in Hp. injection Hp as <-. discriminate.
    + intros props f Hp Hf. injection Hp as <-. discriminate.
  - destruct (dict_get String.eqb (p :: ps) "upgraded_from") as [f|] eqn:Ef.
    + destruct (ti_full_name ti) as [n|] eqn:En.
      * destruct (truthy (Some n)) eqn:Et.
        -- unfold ret. intros H; injection H as <- <-.
           split; [reflexivity|]. split; [exists []; rewrite app_nil_r; reflexivity|]. split.
           ++ left. exists (lower n), (lower f). split; [|reflexivity].
              exists (p :: ps), f, n. repeat split; try assumption; try reflexivity.
              intros ->. discriminate Et.
           ++ intros props f' Hp Hf' Ht. discriminate Ht.
        -- run_m. intros H; injection H as <- <-. cbn [trace seen_tables].
           split; [reflexivity|]. split; [eexists; first [reflexivity | rewrite <- app_assoc; reflexivity]|]. split.
           ++ right. split; [reflexivity|]. intros (k & v & props & f' & n' & _ & _ & Hn & Hne & _).
              rewrite En in Hn. injection Hn as <-. unfold truthy in Et.
              destruct (String.eqb_spec n ""); [contradiction | discriminate].
           ++ intros. apply in_or_app. right. left. reflexivity.
      * run_m. intros H; injection H as <- <-. cbn [trace seen_tables].
        split; [reflexivity|]. split; [eexists; first [reflexivity | rewrite <- app_assoc; reflexivity]|]. split.
        -- right. split; [reflexivity|]. intros (k & v & props & f' & n' & _ & _ & Hn & _).
           rewrite En in Hn. discriminate.
        -- intros. apply in_or_app. right. left. reflexivity.
    + unfold ret. intros H; injection H as <- <-.
      split; [reflexivity|]. split; [exists []; rewrite app_nil_r; reflexivity|]. split.
      * right. split; [reflexivity|]. intros (k & v & props & f' & n & Hp & Hf & _).
        rewrite Ep in Hp. injection Hp as <-. rewrite Ef in Hf. discriminate.
      * intros props f' Hp Hf. injection Hp as <-. rewrite Ef in Hf. discriminate.
  - unfold ret. intros H; injection H as <- <-.
    split; [reflexivity|]. split; [exists []; rewrite app_nil_r; reflexivity|]. split.
    + right. split; [reflexivity|]. intros (k & v & props & f & n & Hp & _).
      rewrite Ep in Hp. discriminate.
    + intros props f Hp. discriminate.
Qed.

Lemma seen_fold_inv (l : list (SchemaInfo * TableInfo)) :
  forall b be st b' st',
  fold_m (fun b p => seen_tables_step (fst p) b (snd p)) b l be st = (Ok b', st') ->
  (forall k, dict_mem String.eqb b' k = true <->
             dict_mem String.eqb b k = true \/ exists p v, In p l /\ tagged_entry (snd p) k v)
  /\ (forall k v, In (k, v) b' -> In (k, v) b \/ exists p, In p l /\ tagged_entry (snd p) k v)
  /\ (exists evs, trace st' = (trace st ++ evs)%list)
  /\ (forall p props upgraded_from, In p l -> ti_properties (snd p) = Some props ->
        dict_get String.eqb props "upgraded_from" = Some upgraded_from ->
        truthy (ti_full_name (snd p)) = false -> In (no_full_name_warning (fst p) (snd p)) (trace st')).
Proof.
  induction l as [|p l IH]; intros b be st b' st' H; simpl in H.
  - unfold ret in H. injection H as <- <-.
    split; [intros k; split; [left; assumption | intros [Hk|(p & v & [] & _)]; exact Hk]|].
    split; [intros k v Hk; left; exact Hk|].
    split; [exists []; rewrite app_nil_r; reflexivity|].
    intros p props f [].
  - unfold bind in H.
    destruct (seen_tables_step (fst p) b (snd p) be st) as [[b1|e] st1] eqn:E1; [|discriminate].
    destruct (seen_tables_step_spec _ _ _ _ _ _ _ E1) as (_ & (evs1 & Htr1) & Hcase & Hwarn1).
    destruct (IH _ _ _ _ _ H) as (Hmem & Hpairs & (evs2 & Htr2) & Hwarn2).
    split; [|split; [|split]].
    + intros k. rewrite Hmem.
      destruct Hcase as [(k0 & v0 & Ht & ->)|(-> & Hnt)].
      * unfold dict_mem at 1. rewrite dict_get_set. fold (dict_mem String.eqb b k).
        destruct (String.eqb_spec k0 k) as [<-|Hne].
        -- split; [intros _; right; exists p, v0; split; [left; reflexivity | exact Ht] | intros _; left; reflexivity].
        -- split.
           ++ intros [Hk|(p' & v & Hin & Htg)]; [left; exact Hk|right; exists p', v; split; [right|]; assumption].
           ++ intros [Hk|(p' & v & [<-|Hin] & Htg)].
              ** left; exact Hk.
              ** destruct (tagged_entry_unique _ _ _ _ _ Ht Htg). contradiction.
              ** right. exists p', v. split; assumption.
      * split.
        -- intros [Hk|(p' & v & Hin & Htg)]; [left; exact Hk|right; exists p', v; split; [right|]; assumption].
        -- intros [Hk|(p' & v & [<-|Hin] & Htg)].
           ++ left; exact Hk.
           ++ exfalso. apply Hnt. exists k, v. exact Htg.
           ++ right. exists p', v. split; assumption.
    + intros k v Hkv. destruct (Hpairs k v Hkv) as [Hb1|(p' & Hin & Htg)].
      * destruct Hcase as [(k0 & v0 & Ht & ->)|(-> & _)].
        -- apply in_dict_set in Hb1. destruct Hb1 as [Heq|Hb].
           ++ injection Heq as -> ->. right. exists p. split; [left; reflexivity | exact Ht].
           ++ left; exact Hb.
        -- left; exact Hb1.
      * right. exists p'. split; [right|]; assumption.
    + exists (evs1 ++ evs2)%list. rewrite Htr2, Htr1, app_assoc. reflexivity.
    + intros p' props f [<-|Hin] Hp Hf Ht.
      * rewrite Htr2. apply in_or_app. left. eapply Hwarn1; eassumption.
      * eapply Hwarn2; eassumption.
Qed.

(** C6: the seen-objects index built by [get_seen_tables] has an entry
    for a (lower-cased) destination identity exactly when some visited
    destination table carries an [upgraded_from] property and has a
    non-empty full name of that lower-case form; each entry maps it to the
    lower-cased [upgraded_from] of such a table, so every key and value is
    lower-case; a table with the property but no full name is skipped with
    a logged warning. *)
Theorem get_seen_tables_index (ws : Workspace) (be : Backend) (st : St) (seen : sdict) (st' : St) :
  get_seen_tables ws be st = (Ok seen, st') ->
  (forall k, dict_mem String.eqb seen k = true <->
             exists p v, In p (all_table_infos ws) /\ tagged_entry (snd p) k v)
  /\ (forall k v, In (k, v) seen ->
        (exists p, In p (all_table_infos ws) /\ tagged_entry (snd p) k v)
        /\ lower k = k /\ lower v = v)
  /\ (forall p props upgraded_from, In p (all_table_infos ws) -> ti_properties (snd p) = Some props ->
        dict_get String.eqb props "upgraded_from" = Some upgraded_from ->
        truthy (ti_full_name (snd p)) = false ->
        In (no_full_name_warning (fst p) (snd p)) (trace st')).
Proof.
  intros H. unfold get_seen_tables in H. rewrite fold_m_nested in H.
  destruct (seen_fold_inv _ _ _ _ _ _ H) as (Hmem & Hpairs & _ & Hwarn).
  split; [|split].
  - intros k. rewrite Hmem. split; [intros [Hk|Hk]; [discriminate | exact Hk] | intros Hk; right; exact Hk].
  - intros k v Hkv. destruct (Hpairs k v Hkv) as [[]|(p & Hin & Htg)].
    split; [exists p; split; assumption|].
    destruct Htg as (props & f & n & _ & _ & _ & _ & -> & ->). split; apply lower_idem.
  - exact Hwarn.
Qed.

(** ** Witnesses *)

Lemma migrate_table_already_upgraded_noop_witness :
  fst (migrate_table Demo.tm_done Demo.orders Demo.orders_rule (Demo.backend "SUCCESS") Demo.st_seen)
    = Ok true
  /\ exists st', migrate_tables Demo.tm_done None (Demo.backend "SUCCESS") Demo.st0 = (Ok tt, st')
                 /\ backend_calls (trace st') = [].
Proof.
  split.
  - rewrite (proj1 (migrate_table_already_upgraded_noop Demo.tm_done) Demo.orders Demo.orders_rule
               (Demo.backend "SUCCESS") Demo.st_seen); [reflexivity | vm_compute; reflexivity].
  - apply (proj2 (migrate_table_already_upgraded_noop Demo.tm_done) None (Demo.backend "SUCCESS")
             Demo.st0 Demo.seen Demo.st_after_seen).
    + vm_compute. reflexivity.
    + intros t Ht. simpl in Ht. destruct Ht as [<-|[<-|[]]]; vm_compute; reflexivity.
Defined.

Lemma migrate_external_table_status_witness :
  fst (migrate_external_table Demo.tm Demo.orders Demo.orders_rule (Demo.backend "SUCCESS") Demo.st0)
    = Ok true
  /\ fst (migrate_external_table Demo.tm Demo.orders Demo.orders_rule (Demo.backend "FAILED") Demo.st0)
    = Ok false.
Proof.
  split.
  - rewrite (proj1 (migrate_external_table_status Demo.tm Demo.orders Demo.orders_rule
                      (Demo.backend "SUCCESS") Demo.st0
                      [("status_code", "SUCCESS"); ("description", "permission denied")] [] "SUCCESS"
                      eq_refl eq_refl) eq_refl eq_refl).
    reflexivity.
  - rewrite (proj1 (proj2 (migrate_external_table_status Demo.tm Demo.orders Demo.orders_rule
                      (Demo.backend "FAILED") Demo.st0
                      [("status_code", "FAILED"); ("description", "permission denied")] [] "FAILED"
                      eq_refl eq_refl)) "permission denied"); [reflexivity | discriminate | reflexivity].
Defined.

Lemma revert_migrated_tables_managed_gating_witness :
  exists r st',
    revert_migrated_tables Demo.tm None None false (Demo.backend "SUCCESS") Demo.st0 = (r, st')
    /\ backend_calls (trace st') =
         [Execute (SqlUnsetUpgradedTo Demo.orders); Execute (SqlDrop "TABLE" "main.sales.orders")].
Proof.
  destruct (proj1 (revert_migrated_tables_managed_gating Demo.tm None None false (Demo.backend "SUCCESS")
                     Demo.st0 Demo.seen Demo.st_after_seen ltac:(vm_compute; reflexivity)))
    as (r & st' & H & Hb).
  exists r, st'. split; [exact H|]. rewrite Hb. vm_compute. reflexivity.
Defined.

Lemma crawl_one_record_per_object_witness :
  Forall2 (crawl_record_ok (reverse_dict Demo.seen) "0" (Demo.backend "SUCCESS"))
    [Demo.orders; Demo.daily; Demo.legacy] Demo.crawl_records.
Proof.
  apply (crawl_one_record_per_object (tm_refresher Demo.tm) "0" (Demo.backend "SUCCESS") Demo.st0
           Demo.seen Demo.st_after_seen Demo.crawl_records Demo.crawl_trace);
    vm_compute; reflexivity.
Defined.

Lemma get_seen_tables_index_witness :
  In (no_full_name_warning (mkSchemaInfo "main" "sales")
        (mkTableInfo "nofullname" None (Some [("upgraded_from", "hive_metastore.sales.x")])))
     (trace Demo.st_after_seen)
  /\ exists p v, In p (all_table_infos Demo.ws) /\ tagged_entry (snd p) "main.sales.daily" v.
Proof.
  assert (H := get_seen_tables_index Demo.ws (Demo.backend "SUCCESS") Demo.st0 Demo.seen
                 Demo.st_after_seen ltac:(vm_compute; reflexivity)).
  destruct H as (Hmem & _ & Hwarn). split.
  - apply (Hwarn (mkSchemaInfo "main" "sales",
              mkTableInfo "nofullname" None (Some [("upgraded_from", "hive_metastore.sales.x")]))
             [("upgraded_from", "hive_metastore.sales.x")] "hive_metastore.sales.x");
      [vm_compute; tauto | reflexivity | reflexivity | reflexivity].
  - apply Hmem. vm_compute. reflexivity.
Defined.

Lemma migrate_dbfs_root_table_sequence_witness :
  fst (migrate_dbfs_root_table Demo.tm Demo.daily Demo.daily_rule (Demo.backend "SUCCESS") Demo.st0)
    = Ok true
  /\ trace (snd (migrate_dbfs_root_table Demo.tm Demo.daily Demo.daily_rule Demo.copy_fails_backend
                   Demo.st0))
     = [LogSql DEBUG ("Migrating managed table " ++ key Demo.daily ++ " to using SQL query: ")
          (SqlMigrateDbfs Demo.daily "main.sales.daily");
        Execute (SqlMigrateDbfs Demo.daily "main.sales.daily")].
Proof.
  split.
  - rewrite (proj1 (migrate_dbfs_root_table_sequence Demo.tm Demo.daily Demo.daily_rule
                      (Demo.backend "SUCCESS") Demo.st0)); reflexivity.
  - rewrite (proj2 (migrate_dbfs_root_table_sequence Demo.tm Demo.daily Demo.daily_rule
                      Demo.copy_fails_backend Demo.st0)); reflexivity.
Defined.

Lemma migrate_table_unsupported_noop_witness :
  migrate_table Demo.tm Demo.legacy Demo.legacy_rule (Demo.backend "SUCCESS") Demo.st0 =
    (Ok true, mkSt [Log INFO ("Table " ++ key Demo.legacy ++ " is not supported for migration")] []).
Proof.
  apply migrate_table_unsupported_noop; [discriminate | discriminate | discriminate | reflexivity].
Defined.

Lemma print_revert_report_result_witness :
  exists r evs,
    print_revert_report Demo.tm false (Demo.backend "SUCCESS") Demo.st0 = (Ok r, mkSt ([] ++ evs) Demo.seen)
    /\ backend_calls evs = []
    /\ (r = false <-> fst (get_revert_count Demo.tm None None (Demo.backend "SUCCESS") Demo.st0) = Ok [])
    /\ (r = false <-> filter (revert_candidate None None Demo.seen) (tm_tc Demo.tm) = [])
    /\ (r = false <-> In (Log INFO "No migrated tables were found.") evs).
Proof.
  exact (print_revert_report_result Demo.tm false (Demo.backend "SUCCESS") Demo.st0 Demo.seen
           Demo.st_after_seen ltac:(vm_compute; reflexivity)).
Defined.

Lemma migrate_external_table_empty_fetch_raises_witness :
  fst (migrate_table Demo.tm Demo.orders Demo.orders_rule Demo.empty_fetch_backend Demo.st0)
    = Err StopIteration.
Proof.
  apply (proj2 (migrate_external_table_empty_fetch_raises Demo.tm Demo.orders Demo.orders_rule
                  Demo.empty_fetch_backend Demo.st0 eq_refl)); reflexivity.
Defined.

(** ** Framed computations *)

Lemma framed_ret {A} (a : A) : framed (ret a).
Proof. intros be tr s. unfold ret. cbn. rewrite app_nil_r. reflexivity. Qed.

Lemma framed_raise {A} (e : Exc) : framed (@raise A e).
Proof. intros be tr s. unfold raise. cbn. rewrite app_nil_r. reflexivity. Qed.

Lemma framed_emit (e : Event) : framed (emit e).
Proof. intros be tr s. reflexivity. Qed.

Lemma framed_log lvl msg : framed (log lvl msg).
Proof. apply framed_emit. Qed.

Lemma framed_print line : framed (print line).
Proof. apply framed_emit. Qed.

Lemma framed_execute (s : Stmt) : framed (execute s).
Proof. intros be tr s0. unfold execute. cbn. destruct (exec_ok be s); reflexivity. Qed.

Lemma framed_fetch (s : Stmt) : framed (fetch s).
Proof. intros be tr s0. unfold fetch. cbn. destruct (fetch_rows be s); reflexivity. Qed.

Lemma framed_get_seen : framed get_seen.
Proof. intros be tr s. unfold get_seen. cbn. rewrite app_nil_r. reflexivity. Qed.

Lemma framed_set_seen d : framed (set_seen d).
Proof. intros be tr s. unfold set_seen. cbn. rewrite app_nil_r. reflexivity. Qed.

Lemma framed_bind {A B} (m : M A) (f : A -> M B) :
  framed m -> (forall a, framed (f a)) -> framed (bind m f).
Proof.
  intros Hm Hf be tr s. unfold bind. rewrite (Hm be tr s).
  destruct (m be (mkSt [] s)) as [[a|e] [t0 s0]]; cbn [fst snd trace seen_tables].
  - rewrite (Hf a be (tr ++ t0)%list s0), (Hf a be t0 s0). cbn. rewrite app_assoc. reflexivity.
  - reflexivity.
Qed.

Lemma framed_try_res {A} (m : M A) : framed m -> framed (try_res m).
Proof.
  intros Hm be tr s. unfold try_res. rewrite (Hm be tr s).
  destruct (m be (mkSt [] s)) as [r [t0 s0]]. reflexivity.
Qed.

Create HintDb framed.
#[local] Hint Resolve framed_ret framed_raise framed_emit framed_log framed_print framed_execute
  framed_fetch framed_get_seen framed_set_seen : framed.

Ltac framed_tac :=
  repeat first
    [ progress (eauto with framed)
    | apply framed_bind; [|intros ?]
    | apply framed_try_res
    | progress cbv beta iota
    | match goal with
      | |- framed (match ?x with _ => _ end) => destruct x
      | |- framed (if ?x then _ else _) => destruct x
      end ].

Lemma keeps_seen_bind {A B} (m : M A) (f : A -> M B) :
  keeps_seen m -> (forall a, keeps_seen (f a)) -> keeps_seen (bind m f).
Proof.
  intros Hm Hf be st. unfold bind. specialize (Hm be st).
  destruct (m be st) as [[a|e] st1]; cbn in *; [rewrite Hf|]; exact Hm.
Qed.

Lemma keeps_seen_emit e : keeps_seen (emit e).
Proof. intros be st. reflexivity. Qed.

Lemma keeps_seen_ret {A} (a : A) : keeps_seen (ret a).
Proof. intros be st. reflexivity. Qed.

Lemma keeps_seen_raise {A} e : keeps_seen (@raise A e).
Proof. intros be st. reflexivity. Qed.

Lemma keeps_seen_execute s : keeps_seen (execute s).
Proof. intros be st. unfold execute. destruct (exec_ok be s); reflexivity. Qed.

Lemma keeps_seen_fetch s : keeps_seen (fetch s).
Proof. intros be st. unfold fetch. destruct (fetch_rows be s); reflexivity. Qed.

Lemma keeps_seen_get_seen : keeps_seen get_seen.
Proof. intros be st. reflexivity. Qed.

Create HintDb keeps.
#[local] Hint Resolve keeps_seen_emit keeps_seen_ret keeps_seen_raise keeps_seen_execute
  keeps_seen_fetch keeps_seen_get_seen : keeps.

Ltac keeps_tac :=
  repeat first
    [ progress (eauto with keeps)
    | apply keeps_seen_bind; [|intros ?]
    | progress cbv beta iota
    | match goal with
      | |- keeps_seen (match ?x with _ => _ end) => destruct x
      | |- keeps_seen (if ?x then _ else _) => destruct x
      end ].

(** [Threads.strict] over tasks that neither read the trace nor touch the
    index: every task runs, from the same index, and the errors are
    collected in task order. *)
Lemma gather_framed {A} (tasks : list (M A)) :
  Forall (fun t => framed t /\ keeps_seen t) tasks ->
  forall be tr s,
    gather tasks be (mkSt tr s) =
      (Ok (flat_map (fun t => match fst (t be (mkSt [] s)) with Ok a => [a] | Err _ => [] end) tasks,
           task_errors be s tasks),
       mkSt (tr ++ task_events be s tasks) s).
Proof.
  induction 1 as [|t ts [Hf Hk] _ IH]; intros be tr s.
  - cbn. rewrite app_nil_r. reflexivity.
  - cbn [gather]. unfold bind at 1, try_res. rewrite (Hf be tr s).
    assert (Hs := Hk be (mkSt [] s)). cbn in Hs.
    unfold task_errors, task_events in *. cbn [flat_map].
    destruct (t be (mkSt [] s)) as [r [t0 s0]]. cbn [fst snd trace seen_tables] in *. subst s0.
    unfold bind. rewrite IH. rewrite !app_assoc.
    destruct r; reflexivity.
Qed.

Lemma Threads_strict_framed {A} name (tasks : list (M A)) :
  Forall (fun t => framed t /\ keeps_seen t) tasks ->
  forall be tr s,
    Threads_strict name tasks be (mkSt tr s) =
      (match task_errors be s tasks with
       | [] => Ok (flat_map (fun t => match fst (t be (mkSt [] s)) with Ok a => [a] | Err _ => [] end) tasks)
       | errs => Err (ManyError errs)
       end,
       mkSt (tr ++ task_events be s tasks) s).
Proof.
  intros H be tr s. unfold Threads_strict, bind. rewrite (gather_framed tasks H be tr s).
  cbn [fst snd]. destruct (task_errors be s tasks); reflexivity.
Qed.

Lemma migrate_table_framed self src_table rule :
  framed (migrate_table self src_table rule) /\ keeps_seen (migrate_table self src_table rule).
Proof.
  unfold migrate_table, table_already_upgraded, migrate_dbfs_root_table, migrate_external_table,
    migrate_view, next_iter, row_attr.
  split; [framed_tac | keeps_tac].
Qed.

Lemma What_eqb_eq (a b : What) : What_eqb a b = true -> a = b.
Proof. destruct a, b; cbn; congruence. Qed.

(** ** Events of a computation *)

Lemma emits_ret P {A} (a : A) : emits P (ret a).
Proof. intros be st. exists []. rewrite app_nil_r. split; [reflexivity | constructor]. Qed.

Lemma emits_raise P {A} e : emits P (@raise A e).
Proof. intros be st. exists []. rewrite app_nil_r. split; [reflexivity | constructor]. Qed.

Lemma emits_emit (P : Event -> Prop) e : P e -> emits P (emit e).
Proof. intros H be st. exists [e]. split; [reflexivity | repeat constructor; exact H]. Qed.

Lemma emits_execute (P : Event -> Prop) s : P (Execute s) -> emits P (execute s).
Proof.
  intros H be st. exists [Execute s]. unfold execute.
  split; [destruct (exec_ok be s); reflexivity | repeat constructor; exact H].
Qed.

Lemma emits_fetch (P : Event -> Prop) s : P (Fetch s) -> emits P (fetch s).
Proof.
  intros H be st. exists [Fetch s]. unfold fetch.
  split; [destruct (fetch_rows be s); reflexivity | repeat constructor; exact H].
Qed.

Lemma emits_get_seen P : emits P get_seen.
Proof. intros be st. exists []. rewrite app_nil_r. split; [reflexivity | constructor]. Qed.

Lemma emits_bind P {A B} (m : M A) (f : A -> M B) :
  emits P m -> (forall a, emits P (f a)) -> emits P (bind m f).
Proof.
  intros Hm Hf be st. destruct (Hm be st) as (evs1 & H1 & F1). unfold bind.
  destruct (m be st) as [[a|e] st1]; cbn [snd] in *.
  - destruct (Hf a be st1) as (evs2 & H2 & F2). exists (evs1 ++ evs2)%list.
    rewrite H2, H1, app_assoc. split; [reflexivity | apply Forall_app; split; assumption].
  - exists evs1. split; assumption.
Qed.

Ltac emits_tac :=
  repeat first
    [ apply emits_ret | apply emits_raise | apply emits_get_seen
    | apply emits_emit | apply emits_execute | apply emits_fetch
    | apply emits_bind; [|intros ?]
    | progress cbv beta iota
    | match goal with
      | |- emits _ (match ?x with _ => _ end) => destruct x
      | |- emits _ (if ?x then _ else _) => destruct x
      end ].

(** Every statement [_migrate_table] sends is a migration statement of its
    own source object to its rule's destination. *)
Lemma migrate_table_emits self src_table rule :
  emits (fun e => forall s, stmt_of_call e = Some s -> migration_stmt src_table (as_uc_table_key rule) s)
    (migrate_table self src_table rule).
Proof.
  unfold migrate_table, table_already_upgraded, migrate_dbfs_root_table, migrate_external_table,
    migrate_view, next_iter, row_attr, log.
  emits_tac; intros s0 Hs; cbn in Hs; try discriminate; injection Hs as <-; cbn; auto.
Qed.

Lemma migrate_tables_tasks_framed self w :
  Forall (fun t => framed t /\ keeps_seen t) (migrate_tables_tasks self w).
Proof.
  apply Forall_forall. intros t Ht. unfold migrate_tables_tasks in Ht.
  apply in_map_iff in Ht. destruct Ht as (x & <- & _). apply migrate_table_framed.
Qed.

Lemma migrate_tables_run self w be st seen st1 :
  get_seen_tables (msr_ws (tm_refresher self)) be st = (Ok seen, st1) ->
  migrate_tables self w be st =
    (match task_errors be seen (migrate_tables_tasks self w) with
     | [] => Ok tt
     | errs => Err (ManyError errs)
     end,
     mkSt (trace st1 ++ task_events be seen (migrate_tables_tasks self w)) seen).
Proof.
  intros Hseen. unfold migrate_tables, init_seen_tables, set_seen, bind. rewrite Hseen.
  cbv beta iota.
  rewrite (Threads_strict_framed _ _ (migrate_tables_tasks_framed self w)).
  destruct (task_errors be seen (migrate_tables_tasks self w)); reflexivity.
Qed.

(** ** Further properties of the migration *)

(** X1: [_migrate_view] and [_migrate_dbfs_root_table] send their three
    statements (creation or copy, then the tag on the source, then the tag
    on the destination) one after the other and stop at the first that
    fails, raising its error; the one before it stays done.  They return
    [True] only when all three succeed. *)
Theorem migrate_view_dbfs_first_failure (self : TablesMigrate) (src_table : Table) (rule : Rule)
  (be : Backend) (st : St) :
  migrate_view self src_table rule be st =
    (match first_failure be [SqlMigrateView src_table (as_uc_table_key rule);
                             SqlAlterTo src_table (as_uc_table_key rule);
                             SqlAlterFrom src_table (as_uc_table_key rule) (get_workspace_id (tm_ws self))] with
     | None => Ok true
     | Some s => Err (SqlError s)
     end,
     mkSt (trace st ++
           LogSql DEBUG ("Migrating view " ++ key src_table ++ " to using SQL query: ")
             (SqlMigrateView src_table (as_uc_table_key rule))
           :: map Execute (issued be [SqlMigrateView src_table (as_uc_table_key rule);
                                      SqlAlterTo src_table (as_uc_table_key rule);
                                      SqlAlterFrom src_table (as_uc_table_key rule)
                                        (get_workspace_id (tm_ws self))]))
       (seen_tables st))
  /\
  migrate_dbfs_root_table self src_table rule be st =
    (match first_failure be [SqlMigrateDbfs src_table (as_uc_table_key rule);
                             SqlAlterTo src_table (as_uc_table_key rule);
                             SqlAlterFrom src_table (as_uc_table_key rule) (get_workspace_id (tm_ws self))] with
     | None => Ok true
     | Some s => Err (SqlError s)
     end,
     mkSt (trace st ++
           LogSql DEBUG ("Migrating managed table " ++ key src_table ++ " to using SQL query: ")
             (SqlMigrateDbfs src_table (as_uc_table_key rule))
           :: map Execute (issued be [SqlMigrateDbfs src_table (as_uc_table_key rule);
                                      SqlAlterTo src_table (as_uc_table_key rule);
                                      SqlAlterFrom src_table (as_uc_table_key rule)
                                        (get_workspace_id (tm_ws self))]))
       (seen_tables st)).
Proof.
  split; unfold migrate_view, migrate_dbfs_root_table; run_m; cbn [first_failure issued map];
    repeat match goal with |- context [exec_ok be ?s] => destruct (exec_ok be s) end;
    cbn; rewrite <- !app_assoc; reflexivity.
Qed.

(** X2: in [_migrate_external_table] the [description] column of the
    SYNC result row is read only on failure: a row without
    [status_code] raises [AttributeError] right after the fetch; a failed
    row without [description] raises [AttributeError] before any warning
    is logged; a [SUCCESS] row needs no [description]. *)
Theorem migrate_external_table_missing_columns (self : TablesMigrate) (src_table : Table) (rule : Rule)
  (be : Backend) (st : St) (r : Row) (rest : list Row) :
  fetch_rows be (SqlMigrateExternal src_table (as_uc_table_key rule)) = Some (r :: rest) ->
  (dict_get String.eqb r "status_code" = None ->
   migrate_external_table self src_table rule be st =
     (Err (AttributeError "status_code"),
      mkSt (trace st ++ [LogSql DEBUG ("Migrating external table " ++ key src_table ++ " to using SQL query: ")
                           (SqlMigrateExternal src_table (as_uc_table_key rule));
                         Fetch (SqlMigrateExternal src_table (as_uc_table_key rule))])
        (seen_tables st)))
  /\
  (forall code, dict_get String.eqb r "status_code" = Some code -> code <> "SUCCESS" ->
   dict_get String.eqb r "description" = None ->
   migrate_external_table self src_table rule be st =
     (Err (AttributeError "description"),
      mkSt (trace st ++ [LogSql DEBUG ("Migrating external table " ++ key src_table ++ " to using SQL query: ")
                           (SqlMigrateExternal src_table (as_uc_table_key rule));
                         Fetch (SqlMigrateExternal src_table (as_uc_table_key rule))])
        (seen_tables st)))
  /\
  (dict_get String.eqb r "status_code" = Some "SUCCESS" ->
   dict_get String.eqb r "description" = None ->
   exec_ok be (SqlAlterFrom src_table (as_uc_table_key rule) (get_workspace_id (tm_ws self))) = true ->
   fst (migrate_external_table self src_table rule be st) = Ok true).
Proof.
  intros Hf. split; [|split].
  - intros Hc. unfold migrate_external_table. run_m. rewrite Hf. cbn. rewrite Hc. cbn.
    rewrite <- app_assoc. reflexivity.
  - intros code Hc Hne Hd. unfold migrate_external_table. run_m. rewrite Hf. cbn. rewrite Hc. cbn.
    apply String.eqb_neq in Hne. rewrite Hne. cbn. rewrite Hd. cbn.
    rewrite <- app_assoc. reflexivity.
  - intros Hc Hd Hx. unfold migrate_external_table. run_m. rewrite Hf. cbn. rewrite Hc. cbn.
    rewrite Hx. reflexivity.
Qed.

(** X3: [migrate_tables] sends no statement to the backend besides the
    migration statements of the selected objects: each statement sent is
    the creation, copy, sync or one of the two tags of a to-migrate
    object whose classification matches the [what] filter (any object
    when no filter is given), towards that object's rule destination.  It
    never drops, never clears a tag and never probes properties. *)
Theorem migrate_tables_sends_only_migration_statements (self : TablesMigrate) (w : option What)
  (be : Backend) (st : St) :
  exists evs,
    trace (snd (migrate_tables self w be st)) = (trace st ++ evs)%list
    /\ forall e s, In e evs -> stmt_of_call e = Some s ->
         exists t, In t (tm_tables_to_migrate self) /\ (w = None \/ w = Some (what (src t)))
                   /\ migration_stmt (src t) (as_uc_table_key (rule t)) s.
Proof.
  destruct (get_seen_tables_quiet (msr_ws (tm_refresher self)) be (seen_tables st) st eq_refl)
    as (seen & evs1 & H1 & Hw).
  rewrite (migrate_tables_run self w be st seen _ H1). cbn [snd trace].
  exists (evs1 ++ task_events be seen (migrate_tables_tasks self w))%list.
  split; [rewrite app_assoc; reflexivity|].
  intros e s Hin Hs. apply in_app_or in Hin as [Hin|Hin].
  - rewrite Forall_forall in Hw. destruct (Hw e Hin) as [msg ->]. discriminate.
  - unfold task_events, migrate_tables_tasks in Hin. apply in_flat_map in Hin.
    destruct Hin as (tk & Htk & He). apply in_map_iff in Htk. destruct Htk as (x & <- & Hx).
    apply filter_In in Hx. destruct Hx as [Hx Hsel].
    exists x. split; [exact Hx|]. split.
    + destruct w as [w|]; [right | left; reflexivity].
      f_equal. symmetry. apply What_eqb_eq. exact Hsel.
    + destruct (migrate_table_emits self (src x) (rule x) be (mkSt [] seen)) as (evs & Ht & F).
      rewrite Ht in He. cbn in He. rewrite Forall_forall in F. exact (F e He s Hs).
Qed.

Lemma task_errors_nil_iff {A} be s (tasks : list (M A)) :
  task_errors be s tasks = [] <-> Forall (fun t => exists a, fst (t be (mkSt [] s)) = Ok a) tasks.
Proof.
  unfold task_errors. induction tasks as [|t ts IH]; [split; [constructor | reflexivity]|].
  cbn [flat_map]. rewrite Forall_cons_iff, <- IH.
  destruct (fst (t be (mkSt [] s))) as [a|e]; cbn [app].
  - split; [intros H; split; [exists a; reflexivity | exact H] | intros [_ H]; exact H].
  - split; [discriminate | intros [[a Ha] _]; discriminate].
Qed.

Lemma backend_calls_flat_map {X} (f : X -> list Event) (xs : list X) :
  backend_calls (flat_map f xs) = flat_map (fun x => backend_calls (f x)) xs.
Proof.
  induction xs as [|x xs IH]; [reflexivity|]. cbn [flat_map]. rewrite backend_calls_app, IH. reflexivity.
Qed.

(** X4: [migrate_tables] runs the task of every selected object, each one
    against the seen index loaded at its start, also when other tasks
    fail, whatever the order the runner finishes them in: it succeeds
    exactly when every task succeeds, otherwise it fails with [ManyError]
    listing the failed tasks' exceptions (up to their order); the
    statements sent are those of all the tasks (up to the order between
    tasks), and the index it holds afterwards is the one loaded at the
    start: destinations created by the run are not added to it. *)
Theorem migrate_tables_runs_every_task (self : TablesMigrate) (w : option What) (be : Backend)
  (st : St) (seen : sdict) (st1 : St) :
  get_seen_tables (msr_ws (tm_refresher self)) be st = (Ok seen, st1) ->
  (fst (migrate_tables self w be st) = Ok tt
   <-> Forall (fun t => exists b, fst (t be (mkSt [] seen)) = Ok b) (migrate_tables_tasks self w))
  /\ (fst (migrate_tables self w be st) = Ok tt
      \/ exists errs, fst (migrate_tables self w be st) = Err (ManyError errs)
                      /\ Permutation errs (task_errors be seen (migrate_tables_tasks self w)))
  /\ Permutation (backend_calls (trace (snd (migrate_tables self w be st))))
       (backend_calls (trace st)
        ++ flat_map (fun t => backend_calls (trace (snd (t be (mkSt [] seen)))))
             (migrate_tables_tasks self w))%list
  /\ seen_tables (snd (migrate_tables self w be st)) = seen.
Proof.
  intros Hseen.
  destruct (get_seen_tables_quiet (msr_ws (tm_refresher self)) be (seen_tables st) st eq_refl)
    as (seen' & evs1 & H1 & Hb1).
  rewrite Hseen in H1. injection H1 as <- Est1.
  apply (Forall_impl _ warning_no_call), Forall_no_call in Hb1.
  rewrite (migrate_tables_run self w be st seen st1 Hseen), Est1. cbn [fst snd trace seen_tables].
  rewrite <- task_errors_nil_iff.
  rewrite !backend_calls_app, Hb1, app_nil_r. unfold task_events. rewrite backend_calls_flat_map.
  destruct (task_errors be seen (migrate_tables_tasks self w)) as [|e errs].
  - split; [split; reflexivity|]. split; [left; reflexivity|]. split; reflexivity.
  - split; [split; discriminate|]. split; [right; exists (e :: errs); split; reflexivity|].
    split; reflexivity.
Qed.

(** ** Seen index held between calls, revert arguments and results *)

Lemma blind_ret {A} (a : A) : seen_blind (ret a).
Proof. intros be tr s1 s2. repeat split. Qed.

Lemma blind_log lvl msg : seen_blind (log lvl msg).
Proof. intros be tr s1 s2. repeat split. Qed.

Lemma blind_bind {A B} (m : M A) (f : A -> M B) :
  seen_blind m -> (forall a, seen_blind (f a)) -> seen_blind (bind m f).
Proof.
  intros Hm Hf be tr s1 s2. unfold bind.
  destruct (Hm be tr s1 s2) as (E1 & E2 & E3). destruct (Hm be tr s2 s1) as (_ & _ & E4).
  destruct (m be (mkSt tr s1)) as [r1 [t1 u1]], (m be (mkSt tr s2)) as [r2 [t2 u2]].
  cbn in *. subst. destruct r2 as [a|e]; [apply Hf | repeat split].
Qed.

Lemma blind_fold_m {A B} (f : B -> A -> M B) :
  (forall b x, seen_blind (f b x)) -> forall xs b, seen_blind (fold_m f b xs).
Proof.
  intros Hf xs. induction xs as [|x xs IH]; intros b; cbn [fold_m].
  - apply blind_ret.
  - apply blind_bind; [apply Hf | intros; apply IH].
Qed.

Lemma get_seen_tables_blind ws : seen_blind (get_seen_tables ws).
Proof.
  unfold get_seen_tables. apply blind_fold_m. intros b schema. apply blind_fold_m. intros b' table.
  unfold seen_tables_step.
  destruct (ti_properties table) as [[|p ps]|]; try apply blind_ret.
  destruct (dict_get String.eqb (p :: ps) "upgraded_from"); try apply blind_ret.
  destruct (ti_full_name table) as [fn|]; [destruct (truthy (Some fn))|];
    try apply blind_ret; apply blind_bind; intros; apply blind_log || apply blind_ret.
Qed.

Lemma init_seen_tables_fresh self be tr s1 s2 :
  init_seen_tables self be (mkSt tr s1) = init_seen_tables self be (mkSt tr s2).
Proof.
  destruct (get_seen_tables_blind (msr_ws (tm_refresher self)) be tr s1 s2) as (E1 & E2 & _).
  destruct (get_seen_tables_quiet (msr_ws (tm_refresher self)) be s1 (mkSt tr s1) eq_refl)
    as (a1 & evs1 & H1 & _).
  destruct (get_seen_tables_quiet (msr_ws (tm_refresher self)) be s2 (mkSt tr s2) eq_refl)
    as (a2 & evs2 & H2 & _).
  rewrite H1, H2 in *. cbn in E1, E2. injection E1 as <-.
  unfold init_seen_tables, bind, set_seen. rewrite H1, H2. cbn. rewrite E2. reflexivity.
Qed.

Lemma bind_fresh {A B} (m : M A) (k : A -> M B) :
  (forall be tr s1 s2, m be (mkSt tr s1) = m be (mkSt tr s2)) ->
  forall be tr s1 s2, bind m k be (mkSt tr s1) = bind m k be (mkSt tr s2).
Proof. intros Hm be tr s1 s2. unfold bind. rewrite (Hm be tr s1 s2). reflexivity. Qed.

(** X5: the entry points reload the seen index before using it: what
    [migrate_tables], [revert_migrated_tables], [_get_revert_count] and
    [print_revert_report] do (result, statements, logs and the index left
    behind) does not depend on the index the object held before the call. *)
Theorem entry_points_ignore_stale_seen_index (self : TablesMigrate) (w : option What)
  (schema table : option string) (delete_managed : bool) (be : Backend)
  (tr : list Event) (s1 s2 : sdict) :
  migrate_tables self w be (mkSt tr s1) = migrate_tables self w be (mkSt tr s2)
  /\ revert_migrated_tables self schema table delete_managed be (mkSt tr s1)
     = revert_migrated_tables self schema table delete_managed be (mkSt tr s2)
  /\ get_revert_count self schema table be (mkSt tr s1) = get_revert_count self schema table be (mkSt tr s2)
  /\ print_revert_report self delete_managed be (mkSt tr s1)
     = print_revert_report self delete_managed be (mkSt tr s2).
Proof.
  assert (Hg : forall sc tb be tr s1 s2, get_revert_count self sc tb be (mkSt tr s1)
                                          = get_revert_count self sc tb be (mkSt tr s2)).
  { intros. unfold get_revert_count. apply bind_fresh, init_seen_tables_fresh. }
  split; [|split; [|split]].
  - unfold migrate_tables. apply bind_fresh, init_seen_tables_fresh.
  - unfold revert_migrated_tables. apply bind_fresh, init_seen_tables_fresh.
  - apply Hg.
  - unfold print_revert_report. apply bind_fresh. intros. apply Hg.
Qed.

Lemma lower_opt_lower (o : option string) : lower_opt (option_map lower o) = lower_opt o.
Proof.
  destruct o as [s|]; [|reflexivity]. unfold lower_opt. cbn [option_map].
  rewrite lower_idem. destruct s as [|c s]; reflexivity.
Qed.

Lemma get_tables_to_revert_lower self schema table :
  get_tables_to_revert self (option_map lower schema) (option_map lower table)
  = get_tables_to_revert self schema table.
Proof. unfold get_tables_to_revert. rewrite !lower_opt_lower. reflexivity. Qed.

(** X6: the [schema] and [table] arguments of the revert are
    case-insensitive: passing them in any letter case (for instance
    ["SALES"] for ["sales"]) gives exactly the same revert and the same
    revert count. *)
Theorem revert_arguments_case_insensitive (self : TablesMigrate) (schema table : option string)
  (delete_managed : bool) :
  revert_migrated_tables self (option_map lower schema) (option_map lower table) delete_managed
  = revert_migrated_tables self schema table delete_managed
  /\ get_revert_count self (option_map lower schema) (option_map lower table)
     = get_revert_count self schema table.
Proof.
  unfold revert_migrated_tables, get_revert_count. rewrite get_tables_to_revert_lower. split; reflexivity.
Qed.

Lemma revert_migrated_table_framed u tg :
  framed (revert_migrated_table u tg) /\ keeps_seen (revert_migrated_table u tg).
Proof. unfold revert_migrated_table. split; [framed_tac | keeps_tac]. Qed.

Lemma revert_task_errors be s0 rev dm cs :
  task_errors be s0 (map (fun p => revert_migrated_table (fst p) (snd p)) (revert_targets rev dm cs)) = []
  <-> Forall (fun e => forall s, e = Execute s -> exec_ok be s = true)
        (flat_map (revert_statements be dm rev) cs).
Proof.
  induction cs as [|u cs IH]; [split; intros; [constructor | reflexivity]|].
  change (revert_targets rev dm (u :: cs)) with
    ((if revert_eligible dm u then
        match dict_get String.eqb rev (key u) with Some tg => [(u, tg)] | None => [] end
      else []) ++ revert_targets rev dm cs)%list.
  rewrite map_app. unfold task_errors in *. rewrite flat_map_app. cbn [flat_map].
  rewrite Forall_app. unfold revert_statements at 1.
  destruct (revert_eligible dm u); [destruct (dict_get String.eqb rev (key u)) as [tg|]|];
    cbn [map flat_map app]; try (rewrite IH; split; [intros H; split; [constructor | exact H]
                                                  | intros [_ H]; exact H]).
  unfold revert_migrated_table. run_m.
  destruct (exec_ok be (SqlUnsetUpgradedTo u)) eqn:E1; run_m.
  - destruct (exec_ok be (SqlDrop (kind u) tg)) eqn:E2; cbn [fst app].
    + rewrite IH. split; [intros H; split; [|exact H] | intros [_ H]; exact H].
      repeat constructor; intros s Hs; injection Hs as <-; assumption.
    + split; [discriminate|]. intros [H _]. apply Forall_inv_tail, Forall_inv in H.
      rewrite (H _ eq_refl) in E2. discriminate.
  - cbn [fst app]. split; [discriminate|]. intros [H _]. apply Forall_inv in H.
    rewrite (H _ eq_refl) in E1. discriminate.
Qed.

Lemma revert_migrated_tables_calls (self : TablesMigrate) schema table delete_managed
  (be : Backend) (st : St) (seen : sdict) (st1 : St) :
  get_seen_tables (msr_ws (tm_refresher self)) be st = (Ok seen, st1) ->
  backend_calls (trace (snd (revert_migrated_tables self schema table delete_managed be st))) =
    (backend_calls (trace st)
     ++ flat_map (revert_statements be delete_managed (reverse_dict seen))
          (filter (revert_candidate (lower_opt schema) (lower_opt table) seen) (tm_tc self)))%list.
Proof.
  intros Hseen.
  assert (Hmem : forall u, In u (filter (revert_candidate (lower_opt schema) (lower_opt table) seen) (tm_tc self)) ->
                 dict_mem String.eqb (reverse_dict seen) (key u) = true).
  { intros u Hu. apply filter_In in Hu. destruct Hu as [_ Hc]. unfold revert_candidate in Hc.
    apply andb_prop in Hc. destruct Hc as [_ Hc]. rewrite dict_mem_reverse. exact Hc. }
  destruct (get_seen_tables_quiet (msr_ws (tm_refresher self)) be (seen_tables st) st eq_refl)
    as (seen' & evs1 & H1 & Hb1).
  rewrite Hseen in H1. injection H1 as <- ->.
  apply (Forall_impl _ warning_no_call), Forall_no_call in Hb1.
  destruct (get_tables_to_revert_run self schema table be (mkSt (trace st ++ evs1) seen))
    as (evs2 & H2 & Hb2).
  cbn [seen_tables trace] in H2.
  destruct (revert_tasks_fold (reverse_dict seen) delete_managed _ be Hmem []
              (mkSt ((trace st ++ evs1) ++ evs2) seen)) as (evs3 & H3 & Hb3).
  cbn [seen_tables app] in H3.
  destruct (Threads_strict_map_trace "revert migrated tables"
              (fun p => revert_migrated_table (fst p) (snd p)) (revert_events be) be
              (revert_targets (reverse_dict seen) delete_managed
                 (filter (revert_candidate (lower_opt schema) (lower_opt table) seen) (tm_tc self)))
              (fun x st => match x with (u, tg) => revert_migrated_table_run be u tg st end)
              (mkSt (((trace st ++ evs1) ++ evs2) ++ evs3) seen))
    as (r & H4).
  unfold revert_migrated_tables, init_seen_tables, bind, set_seen, get_seen.
  rewrite Hseen. cbv beta iota. cbn [trace seen_tables] in *. rewrite H2. cbv beta iota.
  cbn [seen_tables]. rewrite H3. cbv beta iota. rewrite H4.
  apply logs_no_call in Hb2. apply logs_no_call in Hb3.
  destruct r; unfold snd, ret; cbv beta iota; cbn [trace];
    rewrite !backend_calls_app, Hb1, Hb2, Hb3, backend_calls_revert_targets, !app_nil_r;
    reflexivity.
Qed.

(** X7: [revert_migrated_tables] succeeds exactly when every statement it
    sends succeeds; otherwise it fails with a non-empty [ManyError].  All
    the tasks run before that error: the statements sent are those of
    every candidate, also of the ones after a failing task (up to the
    order between tasks).  In particular the lookup
    [reverse_seen[table.key]] never raises: every candidate's key is a
    source recorded in the index. *)
Theorem revert_migrated_tables_succeeds_iff (self : TablesMigrate) (schema table : option string)
  (delete_managed : bool) (be : Backend) (st : St) (seen : sdict) (st1 : St) :
  get_seen_tables (msr_ws (tm_refresher self)) be st = (Ok seen, st1) ->
  (fst (revert_migrated_tables self schema table delete_managed be st) = Ok tt
   <-> Forall (fun e => forall s, e = Execute s -> exec_ok be s = true)
         (flat_map (revert_statements be delete_managed (reverse_dict seen))
            (filter (revert_candidate (lower_opt schema) (lower_opt table) seen) (tm_tc self))))
  /\ (fst (revert_migrated_tables self schema table delete_managed be st) = Ok tt
      \/ exists errs, errs <> [] /\ fst (revert_migrated_tables self schema table delete_managed be st)
                                  = Err (ManyError errs))
  /\ Permutation (backend_calls (trace (snd (revert_migrated_tables self schema table delete_managed be st))))
       (backend_calls (trace st)
        ++ flat_map (revert_statements be delete_managed (reverse_dict seen))
             (filter (revert_candidate (lower_opt schema) (lower_opt table) seen) (tm_tc self)))%list.
Proof.
  intros Hseen.
  assert (Hcalls := revert_migrated_tables_calls self schema table delete_managed be st seen st1 Hseen).
  set (cands := filter (revert_candidate (lower_opt schema) (lower_opt table) seen) (tm_tc self)) in *.
  assert (Hmem : forall u, In u cands -> dict_mem String.eqb (reverse_dict seen) (key u) = true).
  { intros u Hu. apply filter_In in Hu. destruct Hu as [_ Hc]. unfold revert_candidate in Hc.
    apply andb_prop in Hc. destruct Hc as [_ Hc]. rewrite dict_mem_reverse. exact Hc. }
  destruct (get_seen_tables_quiet (msr_ws (tm_refresher self)) be (seen_tables st) st eq_refl)
    as (seen' & evs1 & H1 & _).
  rewrite Hseen in H1. injection H1 as <- ->.
  destruct (get_tables_to_revert_run self schema table be (mkSt (trace st ++ evs1) seen))
    as (evs2 & H2 & _).
  cbn [seen_tables trace] in H2.
  destruct (revert_tasks_fold (reverse_dict seen) delete_managed cands be Hmem []
              (mkSt ((trace st ++ evs1) ++ evs2) seen)) as (evs3 & H3 & _).
  cbn [seen_tables app] in H3.
  set (tasks := map (fun p => revert_migrated_table (fst p) (snd p))
                  (revert_targets (reverse_dict seen) delete_managed cands)).
  assert (Hf : Forall (fun t => framed t /\ keeps_seen t) tasks).
  { apply Forall_forall. intros t Ht. apply in_map_iff in Ht. destruct Ht as ([u tg] & <- & _).
    apply revert_migrated_table_framed. }
  assert (Hr : fst (revert_migrated_tables self schema table delete_managed be st)
               = match task_errors be seen tasks with [] => Ok tt | errs => Err (ManyError errs) end).
  { unfold revert_migrated_tables, init_seen_tables, bind, set_seen, get_seen.
    rewrite Hseen. cbv beta iota. cbn [trace seen_tables] in *. rewrite H2. cbv beta iota.
    cbn [seen_tables]. fold cands. rewrite H3. cbv beta iota. fold tasks.
    rewrite (Threads_strict_framed _ tasks Hf). destruct (task_errors be seen tasks); reflexivity. }
  split; [|split]; [| |rewrite Hcalls; reflexivity].
  - rewrite Hr. rewrite <- (revert_task_errors be seen). fold cands tasks.
    destruct (task_errors be seen tasks); split; congruence.
  - rewrite Hr. destruct (task_errors be seen tasks) as [|e errs]; [left; reflexivity|].
    right. exists (e :: errs). split; [discriminate | reflexivity].
Qed.

Lemma reverse_dict_snoc (d : sdict) kv :
  reverse_dict (d ++ [kv])%list = dict_set String.eqb (reverse_dict d) (snd kv) (fst kv).
Proof. unfold reverse_dict. rewrite fold_left_app. reflexivity. Qed.

(** X8: the inverted index [{v: k for (k, v) in seen.items()}] used by the
    revert and the crawl maps a source [v] to [k] exactly when [(k, v)] is
    the last entry of the index recording [v]: when two destinations
    record the same source, only the later one is kept, so only it is
    dropped by the revert and reported by the crawl. *)
Theorem reverse_dict_lookup (d : sdict) (v k : string) :
  dict_get String.eqb (reverse_dict d) v = Some k
  <-> exists pre post, d = (pre ++ (k, v) :: post)%list /\ ~ In v (map snd post).
Proof.
  revert k. induction d as [|[a b] d IH] using rev_ind; intros k.
  - split; [discriminate|]. intros (pre & post & E & _). destruct pre; discriminate.
  - rewrite reverse_dict_snoc, dict_get_set. cbn [fst snd].
    destruct (String.eqb_spec b v) as [->|Hbv].
    + split.
      * intros H. injection H as <-. exists d, []. split; [reflexivity | intros []].
      * intros (pre & post & E & Hn). induction post as [|x post' _] using rev_ind.
        -- apply app_inj_tail in E. destruct E as [_ E]. injection E as <-. reflexivity.
        -- rewrite app_comm_cons, app_assoc in E. apply app_inj_tail in E. destruct E as [_ <-].
           exfalso. apply Hn. rewrite map_app. apply in_or_app. right. left. reflexivity.
    + rewrite IH. split.
      * intros (pre & post & E & Hn). exists pre, (post ++ [(a, b)])%list.
        rewrite E, <- app_assoc. split; [reflexivity|].
        rewrite map_app. intros Hin. apply in_app_or in Hin as [Hin|[Hin|[]]]; [exact (Hn Hin)|].
        cbn in Hin. congruence.
      * intros (pre & post & E & Hn). induction post as [|x post' _] using rev_ind.
        -- apply app_inj_tail in E. destruct E as [_ E]. injection E as _ ->. congruence.
        -- rewrite app_comm_cons, app_assoc in E. apply app_inj_tail in E. destruct E as [E _].
           exists pre, post'. split; [exact E|]. intros Hin. apply Hn. rewrite map_app.
           apply in_or_app. left. exact Hin.
Qed.

(** ** Revert count *)

Lemma dict_set_sum {K V} (keqb : K -> K -> bool) (f : V -> nat) (d : list (K * V)) k v :
  (dict_sum f (dict_set keqb d k v)
   + match dict_get keqb d k with Some o => f o | None => 0 end = dict_sum f d + f v)%nat.
Proof.
  unfold dict_sum. induction d as [|[a b] d IH]; cbn; [lia|].
  destruct (keqb a k); cbn; lia.
Qed.

Lemma count_what_sum (ts : list Table) :
  dict_sum (fun n => n) (count_what ts) = length (filter has_upgraded_to ts).
Proof.
  unfold count_what.
  assert (H : forall acc, dict_sum (fun n => n)
    (fold_left (fun what_count current_table =>
       match upgraded_to current_table with
       | Some _ =>
           let count := match dict_get What_eqb what_count (what current_table) with
                        | Some c => c | None => 0%nat end in
           dict_set What_eqb what_count (what current_table) (S count)
       | None => what_count
       end) ts acc) = (dict_sum (fun n => n) acc + length (filter has_upgraded_to ts))%nat).
  { induction ts as [|t ts IH]; intros acc; cbn [fold_left filter length]; [lia|].
    rewrite IH.
    assert (Hu : has_upgraded_to t = match upgraded_to t with Some _ => true | None => false end)
      by reflexivity.
    rewrite Hu. destruct (upgraded_to t); cbv beta iota zeta; cbn [length]; [|lia].
    pose proof (dict_set_sum What_eqb (fun n => n) acc (what t)
                  (S match dict_get What_eqb acc (what t) with Some c => c | None => 0%nat end)).
    destruct (dict_get What_eqb acc (what t)); lia. }
  rewrite H. reflexivity.
Qed.

Lemma group_by_database_fold (ts : list Table) : group_by_database ts = fold_left group_step ts [].
Proof. reflexivity. Qed.

Lemma group_sum (ts : list Table) :
  dict_sum (fun l => length (filter has_upgraded_to l)) (group_by_database ts)
  = length (filter has_upgraded_to ts).
Proof.
  rewrite group_by_database_fold.
  assert (H : forall acc, dict_sum (fun l => length (filter has_upgraded_to l)) (fold_left group_step ts acc)
              = (dict_sum (fun l => length (filter has_upgraded_to l)) acc
                 + length (filter has_upgraded_to ts))%nat).
  { induction ts as [|t ts IH]; intros acc; cbn [fold_left filter length]; [lia|].
    rewrite IH. unfold group_step.
    pose proof (dict_set_sum String.eqb (fun l => length (filter has_upgraded_to l)) acc (database t)
                  (match dict_get String.eqb acc (database t) with
                   | Some l => (l ++ [t])%list | None => [t] end)).
    destruct (dict_get String.eqb acc (database t)) as [l|];
      [rewrite filter_app, length_app in H|]; cbn in H;
      destruct (has_upgraded_to t); cbn in *; lia. }
  rewrite H. reflexivity.
Qed.

Lemma in_keys_dict_set {V} (d : list (string * V)) k v x :
  In x (map fst (dict_set String.eqb d k v)) <-> x = k \/ In x (map fst d).
Proof.
  induction d as [|[a b] d IH]; cbn; [intuition congruence|].
  destruct (String.eqb_spec a k) as [->|]; cbn; [intuition congruence|]. rewrite IH. intuition congruence.
Qed.

Lemma nodup_dict_set {V} (d : list (string * V)) k v :
  NoDup (map fst d) -> NoDup (map fst (dict_set String.eqb d k v)).
Proof.
  induction d as [|[a b] d IH]; cbn; intros Hn; [repeat constructor; intros []|].
  inversion Hn as [|? ? Ha Hd]; subst.
  destruct (String.eqb_spec a k) as [->|Hak]; cbn; constructor; auto.
  rewrite in_keys_dict_set. intros [E|E]; [congruence | contradiction].
Qed.

Lemma group_keys (ts : list Table) :
  NoDup (map fst (group_by_database ts))
  /\ forall x, In x (map fst (group_by_database ts)) <-> exists u, In u ts /\ database u = x.
Proof.
  rewrite group_by_database_fold.
  assert (H : forall acc, NoDup (map fst acc) ->
             NoDup (map fst (fold_left group_step ts acc))
             /\ forall x, In x (map fst (fold_left group_step ts acc))
                          <-> In x (map fst acc) \/ exists u, In u ts /\ database u = x).
  { induction ts as [|t ts IH]; intros acc Hn; cbn.
    - split; [exact Hn|]. intros x. split; [tauto|]. intros [H|(u & [] & _)]; exact H.
    - destruct (IH (group_step acc t)) as [H1 H2]; [apply nodup_dict_set, Hn|].
      split; [exact H1|]. intros x. rewrite H2. unfold group_step. rewrite in_keys_dict_set.
      split.
      + intros [[->|H]|(u & Hu & Hx)]; [right; exists t; auto | left; exact H | right; exists u; auto].
      + intros [H|(u & [->|Hu] & Hx)]; [left; right; exact H | left; left; auto | right; exists u; auto]. }
  destruct (H [] (NoDup_nil _)) as [H1 H2]. split; [exact H1|].
  intros x. rewrite H2. cbn. tauto.
Qed.

Lemma count_what_groups (G : list (string * list Table)) :
  list_sum (map (fun dt => dict_sum (fun n => n) (count_what (snd dt))) G)
  = dict_sum (fun l => length (filter has_upgraded_to l)) G.
Proof.
  induction G as [|[db g] G IH]; [reflexivity|].
  transitivity (dict_sum (fun n => n) (count_what g)
                + list_sum (map (fun dt => dict_sum (fun n => n) (count_what (snd dt))) G))%nat;
    [reflexivity|].
  rewrite IH, count_what_sum. reflexivity.
Qed.

(** X9: the count behind the revert report has one entry per database
    holding revert candidates, no database twice, and its counts add up
    to the number of candidates that carry an [upgraded_to] value
    (candidates without one are in no count, although their database is
    listed). *)
Theorem get_revert_count_totals (self : TablesMigrate) (schema table : option string) (be : Backend)
  (st : St) (seen : sdict) (st1 : St) :
  get_seen_tables (msr_ws (tm_refresher self)) be st = (Ok seen, st1) ->
  exists l,
    fst (get_revert_count self schema table be st) = Ok l
    /\ NoDup (map mc_database l)
    /\ (forall db, In db (map mc_database l) <->
         exists u, In u (filter (revert_candidate (lower_opt schema) (lower_opt table) seen) (tm_tc self))
                   /\ database u = db)
    /\ list_sum (map (fun c => dict_sum (fun n => n) (mc_what_count c)) l)
       = length (filter has_upgraded_to
                   (filter (revert_candidate (lower_opt schema) (lower_opt table) seen) (tm_tc self))).
Proof.
  intros Hseen. destruct (get_revert_count_run self schema table be st seen st1 Hseen) as (evs & H & _).
  rewrite H. cbn [fst]. eexists. split; [reflexivity|].
  set (cs := filter (revert_candidate (lower_opt schema) (lower_opt table) seen) (tm_tc self)).
  destruct (group_keys cs) as [Hn Hk].
  rewrite map_map. cbn [mc_database]. split; [exact Hn|]. split; [exact Hk|].
  rewrite map_map. cbn [mc_what_count]. rewrite count_what_groups. apply group_sum.
Qed.

(** ** Point check and crawl probes *)

Lemma is_upgraded_rows_keys schema table rows be st :
  Forall (fun r => dict_get String.eqb r "key" <> None) rows ->
  is_upgraded_rows schema table rows be st =
    (Ok (existsb is_upgraded_to_row rows),
     mkSt (trace st ++ [Log INFO (schema ++ "." ++ table ++
                                  (if existsb is_upgraded_to_row rows then " is set as upgraded"
                                   else " is set as not upgraded"))])
       (seen_tables st)).
Proof.
  induction 1 as [|r rows Hr _ IH]; [reflexivity|].
  cbn [is_upgraded_rows existsb]. unfold row_item.
  destruct (dict_get String.eqb r "key") as [k|] eqn:Ek; [|congruence].
  assert (Hu : is_upgraded_to_row r = String.eqb k "upgraded_to")
    by (unfold is_upgraded_to_row; rewrite Ek; reflexivity).
  rewrite Hu. unfold bind, ret. destruct (String.eqb k "upgraded_to"); [reflexivity|]. exact IH.
Qed.

Lemma is_upgraded_rows_missing schema table pre r post be st :
  Forall (fun r => is_upgraded_to_row r = false /\ dict_get String.eqb r "key" <> None) pre ->
  dict_get String.eqb r "key" = None ->
  fst (is_upgraded_rows schema table (pre ++ r :: post) be st) = Err (AttributeError "key").
Proof.
  intros Hpre Hr. induction Hpre as [|r' pre [Hu Hk] _ IH].
  - cbn. unfold row_item. rewrite Hr. reflexivity.
  - cbn [app is_upgraded_rows]. unfold row_item. unfold is_upgraded_to_row in Hu.
    destruct (dict_get String.eqb r' "key") as [k|]; [|congruence].
    unfold bind, ret. cbv beta iota. rewrite Hu. exact IH.
Qed.

(** X10: the point check [is_upgraded] sends one [SHOW TBLPROPERTIES]
    fetch and answers [True] exactly when some returned row has the key
    [upgraded_to], logging one info line with the answer; a row without a
    [key] column met before any [upgraded_to] row raises [AttributeError]. *)
Theorem is_upgraded_point_check (schema table : string) (be : Backend) (st : St) (rows : list Row) :
  fetch_rows be (ShowTblProperties schema table) = Some rows ->
  (Forall (fun r => dict_get String.eqb r "key" <> None) rows ->
   is_upgraded schema table be st =
     (Ok (existsb is_upgraded_to_row rows),
      mkSt (trace st ++ [Fetch (ShowTblProperties schema table);
                         Log INFO (schema ++ "." ++ table ++
                                   (if existsb is_upgraded_to_row rows then " is set as upgraded"
                                    else " is set as not upgraded"))])
        (seen_tables st)))
  /\ (forall pre r post, rows = (pre ++ r :: post)%list ->
        Forall (fun r => is_upgraded_to_row r = false /\ dict_get String.eqb r "key" <> None) pre ->
        dict_get String.eqb r "key" = None ->
        fst (is_upgraded schema table be st) = Err (AttributeError "key")).
Proof.
  intros Hf. split.
  - intros Hk. unfold is_upgraded, bind, fetch. rewrite Hf.
    rewrite (is_upgraded_rows_keys schema table rows be _ Hk). cbn. rewrite <- app_assoc. reflexivity.
  - intros pre r post -> Hpre Hr. unfold is_upgraded, bind, fetch. rewrite Hf.
    apply is_upgraded_rows_missing; assumption.
Qed.

Lemma is_upgraded_rows_no_call schema table rows : emits no_call (is_upgraded_rows schema table rows).
Proof.
  induction rows as [|r rows IH]; cbn [is_upgraded_rows]; unfold row_item, log;
    emits_tac; try exact IH; reflexivity.
Qed.

Lemma crawl_one_calls rev ts t be st rec st' :
  crawl_one rev ts t be st = (Ok rec, st') ->
  exists evs, trace st' = (trace st ++ evs)%list
    /\ backend_calls evs = if dict_mem String.eqb rev (key t)
                           then [Fetch (ShowTblProperties (database t) (name t))] else [].
Proof.
  unfold crawl_one. destruct (dict_mem String.eqb rev (key t)).
  - unfold bind at 1. destruct (is_upgraded (database t) (name t) be st) as [[up|e] st2] eqn:Eu;
      [|discriminate].
    intros H. assert (Hst : st' = st2).
    { destruct up; [destruct (dict_get String.eqb rev (key t)) as [tg|];
        [destruct (Nat.eqb (length (split "." tg)) 3)|]|]; unfold ret, raise in H; congruence. }
    subst st2. unfold is_upgraded, bind, fetch in Eu.
    destruct (fetch_rows be (ShowTblProperties (database t) (name t))) as [rows|]; [|discriminate].
    destruct (is_upgraded_rows_no_call (database t) (name t) rows be
                (mkSt (trace st ++ [Fetch (ShowTblProperties (database t) (name t))]) (seen_tables st)))
      as (evs & He & F).
    rewrite Eu in He. cbn in He.
    exists (Fetch (ShowTblProperties (database t) (name t)) :: evs). split.
    + rewrite He, <- app_assoc. reflexivity.
    + unfold backend_calls. cbn. f_equal. apply Forall_no_call, F.
  - intros H. injection H as _ <-. exists []. rewrite app_nil_r. split; reflexivity.
Qed.

Lemma map_m_crawl_calls rev ts be (xs : list Table) :
  forall recs st st', map_m (crawl_one rev ts) xs be st = (Ok recs, st') ->
  exists evs, trace st' = (trace st ++ evs)%list
    /\ backend_calls evs = flat_map (fun t => if dict_mem String.eqb rev (key t)
                                              then [Fetch (ShowTblProperties (database t) (name t))]
                                              else []) xs.
Proof.
  induction xs as [|x xs IH]; intros recs st st' H; cbn [map_m] in H.
  - injection H as _ <-. exists []. rewrite app_nil_r. split; reflexivity.
  - unfold bind at 1 in H. destruct (crawl_one rev ts x be st) as [[r|e] st1] eqn:E1; [|discriminate].
    unfold bind in H. destruct (map_m (crawl_one rev ts) xs be st1) as [[rs|e] st2] eqn:E2;
      [|discriminate].
    unfold ret in H. injection H as _ <-.
    destruct (crawl_one_calls rev ts x be st r st1 E1) as (evs1 & T1 & B1).
    destruct (IH rs st1 st2 E2) as (evs2 & T2 & B2).
    exists (evs1 ++ evs2)%list. split; [rewrite T2, T1, app_assoc; reflexivity|].
    rewrite backend_calls_app, B1, B2. reflexivity.
Qed.

(** X11: a successful refresh crawl sends exactly one property probe
    ([SHOW TBLPROPERTIES]) per inventory object whose key is a source
    recorded in the seen index, in inventory order, and no other
    statement: objects the index does not record are never probed. *)
Theorem crawl_probes_index_members (self : MigrationStatusRefresher) (timestamp : string) (be : Backend)
  (st : St) (seen : sdict) (st1 : St) (recs : list MigrationStatus) (st' : St) :
  get_seen_tables (msr_ws self) be st = (Ok seen, st1) ->
  crawl self timestamp be st = (Ok recs, st') ->
  backend_calls (trace st') =
    (backend_calls (trace st)
     ++ flat_map (fun t => if in_values (key t) seen
                           then [Fetch (ShowTblProperties (database t) (name t))] else [])
          (msr_table_crawler self))%list.
Proof.
  intros Hseen H. unfold crawl, bind in H. rewrite Hseen in H.
  destruct (get_seen_tables_quiet (msr_ws self) be (seen_tables st) st eq_refl) as (seen' & evs1 & H1 & W).
  rewrite Hseen in H1. injection H1 as <- ->.
  destruct (map_m_crawl_calls _ _ _ _ _ _ _ H) as (evs & T & B).
  rewrite T. cbn [trace]. rewrite !backend_calls_app, B.
  apply (Forall_impl _ warning_no_call), Forall_no_call in W. rewrite W, app_nil_r.
  f_equal. apply flat_map_ext. intros t. rewrite dict_mem_reverse. reflexivity.
Qed.

(** ** Layout of the revert report *)

Lemma string_length_app (s1 s2 : string) :
  String.length (s1 ++ s2) = (String.length s1 + String.length s2)%nat.
Proof. induction s1 as [|c s1 IH]; cbn; [reflexivity | rewrite IH; reflexivity]. Qed.

Lemma length_concat_repeat (c : string) (n : nat) :
  String.length c = 1%nat -> String.length (String.concat "" (repeat c n)) = n.
Proof.
  intros Hc. induction n as [|n IH]; [reflexivity|].
  destruct n as [|n]; [cbn [repeat String.concat]; exact Hc|].
  change (String.concat "" (repeat c (S (S n)))) with (c ++ "" ++ String.concat "" (repeat c (S n))).
  rewrite !string_length_app, IH, Hc. reflexivity.
Qed.

Lemma length_ljust w s : String.length (ljust w s) = Nat.max w (String.length s).
Proof. unfold ljust. rewrite string_length_app, length_concat_repeat by reflexivity. lia. Qed.

Lemma length_rjust_nat w n : String.length (rjust_nat w n) = Nat.max w (String.length (str_of_nat n)).
Proof. unfold rjust_nat. rewrite string_length_app, length_concat_repeat by reflexivity. lia. Qed.

Lemma length_mul_str c n : String.length c = 1%nat -> String.length (mul_str c n) = n.
Proof. apply length_concat_repeat. Qed.

Lemma fold_width (step : string -> What -> string) (l : list What) (base : string) :
  (forall s w, In w l -> String.length (step s w) = (String.length s + 13)%nat) ->
  String.length (fold_left step l base) = (String.length base + 13 * length l)%nat.
Proof.
  revert base. induction l as [|w l IH]; intros base Hs; cbn [fold_left length]; [lia|].
  rewrite IH; [rewrite (Hs base w (or_introl eq_refl)); lia|].
  intros s w' Hw. apply Hs. right. exact Hw.
Qed.

Lemma nth_Forall (P : string -> Prop) (l : list string) k :
  Forall P l -> P "" -> P (nth k l "").
Proof.
  intros Hl Hd. revert k. induction Hl as [|x l Hx _ IH]; intros [|k]; cbn; auto.
Qed.

Lemma what_pieces_short (w : What) (k : nat) : (String.length (nth k (what_pieces w) "") <= 10)%nat.
Proof.
  apply nth_Forall; [|cbn; lia].
  apply Forall_forall. intros p Hp. destruct w; vm_compute in Hp;
    repeat (destruct Hp as [<-|Hp]; [cbn; lia|]); destruct Hp.
Qed.

(** X12: in the console table of [print_revert_report] the header, every
    sub-header and every data row have the same width, [21 + 13] per
    classification, provided database names fit in 20 characters and
    counts in 10 digits; the two separator lines around the rows are one
    character wider, [22 + 13] per classification.  There is one data
    row per database count, in order. *)
Theorem report_lines_widths (migrated_count : list MigrationCount) (delete_managed : bool) :
  Forall (fun c => (String.length (mc_database c) <= 20)%nat) migrated_count ->
  (forall c w n, In c migrated_count -> dict_get What_eqb (mc_what_count c) w = Some n ->
     (String.length (str_of_nat n) <= 10)%nat) ->
  exists header subs rows tail,
    report_lines migrated_count delete_managed =
      ("The following is the count of migrated tables and views found in scope:" :: header :: subs
       ++ mul_str "=" (22 + 13 * length What_all) :: rows
       ++ mul_str "=" (22 + 13 * length What_all) :: tail)%list
    /\ String.length header = (21 + 13 * length What_all)%nat
    /\ Forall (fun l => String.length l = (21 + 13 * length What_all)%nat) subs
    /\ Forall (fun l => String.length l = (21 + 13 * length What_all)%nat) rows
    /\ length rows = length migrated_count
    /\ String.length (mul_str "=" (22 + 13 * length What_all)) = (22 + 13 * length What_all)%nat.
Proof.
  intros Hdb Hn. unfold report_lines. cbv zeta.
  do 4 eexists. split; [reflexivity|].
  split; [|split; [|split; [|split]]].
  - rewrite fold_width; [reflexivity|]. intros s w _.
    rewrite !string_length_app, length_ljust. pose proof (what_pieces_short w 0). cbn [String.length]. lia.
  - apply Forall_forall. intros l Hl. apply in_map_iff in Hl. destruct Hl as (h & <- & _).
    rewrite fold_width; [reflexivity|]. intros s w _.
    destruct (_ <? _)%nat.
    + rewrite !string_length_app, length_mul_str by reflexivity. cbn [String.length]. lia.
    + rewrite !string_length_app, length_ljust. pose proof (what_pieces_short w h).
      cbn [String.length]. lia.
  - apply Forall_forall. intros l Hl. apply in_map_iff in Hl. destruct Hl as (c & <- & Hc).
    rewrite fold_width.
    + rewrite string_length_app, length_ljust. rewrite Forall_forall in Hdb.
      pose proof (Hdb c Hc). cbn [String.length]. lia.
    + intros s w _. rewrite !string_length_app, length_rjust_nat.
      destruct (dict_get What_eqb (mc_what_count c) w) as [n|] eqn:E.
      * pose proof (Hn c w n Hc E). cbn [String.length]. lia.
      * cbn. lia.
  - apply length_map.
  - apply length_mul_str. reflexivity.
Qed.

(** ** Witnesses of the further properties *)

Lemma migrate_external_table_missing_columns_witness :
  fst (migrate_external_table Demo.tm Demo.orders Demo.orders_rule Demo.no_description_backend Demo.st0)
  = Err (AttributeError "description").
Proof.
  rewrite (proj1 (proj2 (migrate_external_table_missing_columns Demo.tm Demo.orders Demo.orders_rule
                           Demo.no_description_backend Demo.st0 [("status_code", "FAILED")] [] eq_refl))
             "FAILED" eq_refl ltac:(discriminate) eq_refl).
  reflexivity.
Defined.

Lemma migrate_tables_runs_every_task_witness :
  exists errs, fst (migrate_tables Demo.tm_fresh None Demo.copy_fails_backend Demo.st0) = Err (ManyError errs)
    /\ Permutation errs [StopIteration; SqlError (SqlMigrateDbfs Demo.daily "main.sales.daily")].
Proof.
  destruct (migrate_tables_runs_every_task Demo.tm_fresh None Demo.copy_fails_backend Demo.st0 [] Demo.st0
              ltac:(vm_compute; reflexivity)) as (_ & [Hok | (errs & He & Hp)] & _).
  - vm_compute in Hok. discriminate Hok.
  - exists errs. split; [exact He|]. vm_compute in Hp. exact Hp.
Defined.

Lemma revert_migrated_tables_succeeds_iff_witness :
  fst (revert_migrated_tables Demo.tm None None true (Demo.backend "SUCCESS") Demo.st0) = Ok tt.
Proof.
  apply (proj2 (proj1 (revert_migrated_tables_succeeds_iff Demo.tm None None true (Demo.backend "SUCCESS")
                         Demo.st0 Demo.seen Demo.st_after_seen ltac:(vm_compute; reflexivity)))).
  apply Forall_forall. intros e _ s _. reflexivity.
Defined.

Lemma get_revert_count_totals_witness :
  exists l, fst (get_revert_count Demo.tm None None (Demo.backend "SUCCESS") Demo.st0) = Ok l
            /\ NoDup (map mc_database l).
Proof.
  destruct (get_revert_count_totals Demo.tm None None (Demo.backend "SUCCESS") Demo.st0 Demo.seen
              Demo.st_after_seen ltac:(vm_compute; reflexivity)) as (l & H1 & H2 & _).
  exists l. split; assumption.
Defined.

Lemma is_upgraded_point_check_witness :
  fst (is_upgraded "sales" "orders" (Demo.backend "SUCCESS") Demo.st0) = Ok true.
Proof.
  rewrite (proj1 (is_upgraded_point_check "sales" "orders" (Demo.backend "SUCCESS") Demo.st0
                    [[("key", "upgraded_to"); ("value", "main.sales.orders")]] eq_refl)
             ltac:(apply Forall_cons; [cbn; discriminate | apply Forall_nil])).
  reflexivity.
Defined.

Lemma crawl_probes_index_members_witness :
  backend_calls (trace Demo.crawl_trace)
  = [Fetch (ShowTblProperties "sales" "orders"); Fetch (ShowTblProperties "sales" "daily")].
Proof.
  rewrite (crawl_probes_index_members (tm_refresher Demo.tm) "0" (Demo.backend "SUCCESS") Demo.st0
             Demo.seen Demo.st_after_seen Demo.crawl_records Demo.crawl_trace
             ltac:(vm_compute; reflexivity) ltac:(vm_compute; reflexivity)).
  vm_compute. reflexivity.
Defined.

Lemma report_lines_widths_witness :
  exists header, String.length header = (21 + 13 * length What_all)%nat
                 /\ nth 1 (report_lines Demo.counts false) "" = header.
Proof.
  destruct (report_lines_widths Demo.counts false
              ltac:(apply Forall_cons; [cbn; lia | apply Forall_nil])
              ltac:(intros c w n [<- | []] E; destruct w; cbn in E; try discriminate;
                    injection E as <-; vm_compute; lia))
    as (header & subs & rows & tail & E & Hh & _).
  exists header. split; [exact Hh|]. rewrite E. reflexivity.
Defined.
